(** * Box: theme-driven style resolution with vertical rhythm

    A shallow embedding of the style function of the [Box] component
    (rhythmOrString, propToStyle, propsToStyle, adjustPaddingForRhythm,
    borderWithRhythm and Box itself) together with the properties its
    specification states about it.

    Modelling conventions.
    - A JavaScript number is an exact rational or NaN; results of
      arithmetic are kept in lowest terms, so equal numbers are equal
      terms.  Rounding, infinities and the sign of zero are not modelled.
    - A value is a primitive (undefined, null, a boolean, a number or a
      string) or one of the members that a plain object inherits from
      Object.prototype.  In a string the characters below 128 are the
      ASCII characters; nothing is fixed about the others.
    - A request ([props]) is the list of its own properties in the order
      [Object.keys] enumerates them; a style object is a finite map from
      property names to values.
    - The theme holds finite numbers; [theme.colors] is a plain object
      from names to colour strings: a name that is not one of its keys
      reads as the member inherited from Object.prototype when there is
      one (toString, constructor, ...), and as undefined otherwise.
    - [warning(false, msg)] appends [msg] to a log that is returned next
      to the style; an uncaught TypeError is an explicit [Throw].
    - Four conversions of the runtime stay abstract: printing a number
      that is not an integer below 10^21, printing an inherited member,
      reading a string as a number, and capitalising a string that starts
      outside ASCII. *)

From Stdlib Require Import ZArith QArith Qcanon String Ascii List DecimalString Lia.
From stdpp Require Import gmap strings.

Local Open Scope string_scope.
Local Open Scope list_scope.

(** ** Numbers and values *)

Inductive number :=
  | Finite (q : Q)
  | NaN.

Definition num_mul (a b : number) : number :=
  match a, b with
  | Finite x, Finite y => Finite (Qred (x * y))
  | _, _ => NaN
  end.

Definition num_sub (a b : number) : number :=
  match a, b with
  | Finite x, Finite y => Finite (Qred (x - y))
  | _, _ => NaN
  end.

(** [a >= 0]; every comparison with NaN is false. *)
Definition num_ge0 (a : number) : bool :=
  match a with
  | Finite x => Qle_bool 0 x
  | NaN => false
  end.

Definition num_eqb (a b : number) : bool :=
  match a, b with
  | Finite x, Finite y => Qeq_bool x y
  | _, _ => false
  end.

Definition num_truthy (a : number) : bool :=
  match a with
  | Finite x => negb (Qeq_bool x 0)
  | NaN => false
  end.

Definition num_of_Z (z : Z) : number := Finite (inject_Z z).

Inductive value :=
  | VUndefined
  | VNull
  | VBool (b : bool)
  | VNumber (n : number)
  | VString (s : string)
  | VInherited (name : string).

Definition truthy (v : value) : bool :=
  match v with
  | VUndefined | VNull => false
  | VBool b => b
  | VNumber n => num_truthy n
  | VString s => negb (String.eqb s "")
  | VInherited _ => true
  end.

(** [a || b] and [a && b] on values. *)
Definition js_or (a b : value) : value := if truthy a then a else b.
Definition js_and (a b : value) : value := if truthy a then b else a.

(** [typeof v === 'string']. *)
Definition is_string (v : value) : bool :=
  match v with VString _ => true | _ => false end.

(** [a === b]. *)
Definition strict_eq (a b : value) : bool :=
  match a, b with
  | VUndefined, VUndefined => true
  | VNull, VNull => true
  | VBool x, VBool y => Bool.eqb x y
  | VNumber x, VNumber y => num_eqb x y
  | VString x, VString y => String.eqb x y
  | VInherited x, VInherited y => String.eqb x y
  | _, _ => false
  end.

(** ** Strings *)

Definition ascii_upper (c : ascii) : ascii :=
  let n := nat_of_ascii c in
  if (97 <=? n)%nat && (n <=? 122)%nat then ascii_of_nat (n - 32) else c.

Definition ascii_lower (c : ascii) : ascii :=
  let n := nat_of_ascii c in
  if (65 <=? n)%nat && (n <=? 90)%nat then ascii_of_nat (n + 32) else c.

(** [toLowerCase], as the code applies it: to the edge names, which are
    ASCII. *)
Fixpoint toLowerCase (s : string) : string :=
  match s with
  | EmptyString => EmptyString
  | String c r => String (ascii_lower c) (toLowerCase r)
  end.

Definition Z_to_string (z : Z) : string := NilZero.string_of_int (Z.to_int z).

(** ** Theme, requests, styles *)

Record theme := {
  typography_lineHeight : Q;
  colors : gmap string string;
  border_width : Q;
  border_radius : Q
}.

Inductive exn := TypeError.

Inductive result (A : Type) :=
  | Ok (a : A)
  | Throw (e : exn).
Arguments Ok {A} a.
Arguments Throw {A} e.

Global Instance result_bind : MBind result := λ A B k r,
  match r with
  | Ok a => k a
  | Throw e => Throw e
  end.

(** The names of the members a plain object inherits from
    Object.prototype. *)
Definition objectPrototype : list string :=
  ["constructor"; "hasOwnProperty"; "isPrototypeOf"; "propertyIsEnumerable";
   "toLocaleString"; "toString"; "valueOf"; "__proto__";
   "__defineGetter__"; "__defineSetter__"; "__lookupGetter__";
   "__lookupSetter__"].

(** [Object.keys(props)] and [props[k]]. *)
Definition keys (props : list (string * value)) : list string := fst <$> props.

Fixpoint get (props : list (string * value)) (k : string) : value :=
  match props with
  | [] => VUndefined
  | (k', v) :: rest => if String.eqb k' k then v else get rest k
  end.

(** [style[k]]. *)
Definition style_get (style : gmap string value) (k : string) : value :=
  default VUndefined (style !! k).

Definition elem (k : string) (l : list string) : bool :=
  existsb (String.eqb k) l.

Definition plainProps : list string :=
  ["display"; "flex"; "flexDirection"; "flexFlow"; "flexGrow"; "flexWrap";
   "alignItems"; "alignContent"; "justifyContent"; "order"; "flexShrink";
   "flexBasis"; "alignSelf"].

Definition rhythmProps : list string :=
  ["marginBottom"; "marginLeft"; "marginRight"; "marginTop";
   "paddingBottom"; "paddingLeft"; "paddingRight"; "paddingTop";
   "width"; "height"; "maxWidth"; "maxHeight"; "minWidth"; "minHeight"].

Definition shorthandProps : list string :=
  ["marginHorizontal"; "marginVertical"; "paddingHorizontal"; "paddingVertical"].

Definition directionMapping (prop : string) : string * string :=
  if String.eqb prop "marginHorizontal" then ("marginLeft", "marginRight")
  else if String.eqb prop "marginVertical" then ("marginTop", "marginBottom")
  else if String.eqb prop "paddingHorizontal" then ("paddingLeft", "paddingRight")
  else ("paddingTop", "paddingBottom").

(** A theme and a runtime for closed examples: line height 20, border
    width 1, and gray as the only colour.  The examples print integers
    only, print no inherited member, read no string as a number and
    capitalise ASCII names only. *)
Definition demoTheme : theme :=
  {| typography_lineHeight := 20;
     colors := {[ "gray" := "#ccc" ]};
     border_width := 1;
     border_radius := 2 |}.

Definition noFraction (q : Q) : string := "".
Definition noNative (name : string) : string := "".
Definition noParse (s : string) : number := NaN.
Definition noCapital (s : string) : string := s.

(** The requests the specification walks through. *)
Definition marginThenLeft : list (string * value) :=
  [("margin", VNumber (num_of_Z 1)); ("marginLeft", VNumber (Finite (1 # 2)))].

Definition leftThenMargin : list (string * value) :=
  [("marginLeft", VNumber (Finite (1 # 2))); ("margin", VNumber (num_of_Z 1))].

Definition borderedNoPadding : list (string * value) :=
  [("border", VBool true); ("paddingTop", VBool false)].

Definition borderedSuppressed : list (string * value) :=
  [("border", VBool true); ("paddingTop", VBool false);
   ("suppressRhythmWarning", VBool true)].

Definition borderedPadded : list (string * value) :=
  [("border", VBool true); ("paddingTop", VNumber (num_of_Z 1))].

Definition bottomPaddedSuppressed : list (string * value) :=
  [("border", VBool true); ("paddingBottom", VNumber (num_of_Z 1));
   ("suppressRhythmWarning", VBool true)].

Definition zeroBorderWidth : list (string * value) :=
  [("border", VBool true); ("borderWidth", VNumber (num_of_Z 0))].

Definition wideBorder : list (string * value) :=
  [("border", VBool true); ("borderWidth", VNumber (num_of_Z 2))].

Definition unknownColors : list (string * value) :=
  [("backgroundColor", VString "nope"); ("border", VBool true);
   ("borderColor", VString "nope")].

Definition inheritedColor : list (string * value) :=
  [("backgroundColor", VString "toString")].

Definition unknownColorNumberBorder : list (string * value) :=
  [("backgroundColor", VString "nope"); ("border", VNumber (num_of_Z 5))].



Definition topBorderPadded : list (string * value) :=
  [("border", VString "top"); ("paddingTop", VNumber (num_of_Z 1))].

(** Further examples: a theme without border stroke, and requests for
    the properties beyond the specification's. *)
Definition flatTheme : theme :=
  {| typography_lineHeight := 20;
     colors := {[ "gray" := "#ccc" ]};
     border_width := 0;
     border_radius := 2 |}.

Definition borderOff : list (string * value) :=
  [("border", VBool false); ("borderWidth", VNumber (num_of_Z 3));
   ("padding", VNumber (num_of_Z 1))].

Definition classNameFirst : list (string * value) :=
  [("className", VString "card"); ("marginTop", VNumber (num_of_Z 1))].

Definition marginOnly : list (string * value) :=
  [("margin", VNumber (num_of_Z 1))].

Definition fourMargins : list (string * value) :=
  [("marginBottom", VNumber (num_of_Z 1)); ("marginLeft", VNumber (num_of_Z 1));
   ("marginRight", VNumber (num_of_Z 1)); ("marginTop", VNumber (num_of_Z 1))].

Definition marginThenDisplay : list (string * value) :=
  [("marginTop", VNumber (num_of_Z 1)); ("display", VString "flex")].

Definition displayThenMargin : list (string * value) :=
  [("display", VString "flex"); ("marginTop", VNumber (num_of_Z 1))].

Definition flexBordered : list (string * value) :=
  [("display", VString "flex"); ("border", VBool true)].

Definition zeroRadius : list (string * value) :=
  [("borderRadius", VNumber (num_of_Z 0))].

Definition percentTop : list (string * value) :=
  [("border", VString "top"); ("paddingTop", VString "10%")].

Definition topBorderTwoPaddings : list (string * value) :=
  [("border", VString "top"); ("paddingBottom", VNumber (num_of_Z 1));
   ("paddingTop", VNumber (num_of_Z 1))].

Definition paddedThenBordered : list (string * value) :=
  [("paddingTop", VNumber (num_of_Z 1)); ("border", VBool true)].

Section Style.

(** The conversions of the JavaScript runtime that the style function
    reaches and that stay abstract: how a number that is not a
    (moderately sized) integer is printed, how a member inherited from
    Object.prototype is printed (the text of a native function depends on
    the engine), how a string is read as a number, and the result of
    [s.charAt(0).toUpperCase() + s.slice(1)] for a string [s] that starts
    outside ASCII. *)
Variable fractionToString : Q → string.
Variable inheritedToString : string → string.
Variable stringToNumber : string → number.
Variable unicodeCapitalise : string → string.

Definition numberToString (n : number) : string :=
  match n with
  | NaN => "NaN"
  | Finite q =>
      let r := Qred q in
      if Pos.eqb (Qden r) 1 && (Z.abs (Qnum r) <? 10 ^ 21)%Z
      then Z_to_string (Qnum r)
      else fractionToString q
  end.

Definition toString (v : value) : string :=
  match v with
  | VUndefined => "undefined"
  | VNull => "null"
  | VBool true => "true"
  | VBool false => "false"
  | VNumber n => numberToString n
  | VString s => s
  | VInherited name => inheritedToString name
  end.

Definition toNumber (v : value) : number :=
  match v with
  | VUndefined => NaN
  | VNull => num_of_Z 0
  | VBool true => num_of_Z 1
  | VBool false => num_of_Z 0
  | VNumber n => n
  | VString s => stringToNumber s
  | VInherited _ => NaN
  end.

(** [theme.colors[v]]: the own property, else the inherited member, else
    undefined. *)
Definition color (th : theme) (v : value) : value :=
  match colors th !! toString v with
  | Some c => VString c
  | None => if elem (toString v) objectPrototype
            then VInherited (toString v) else VUndefined
  end.

Definition rhythmOrString (th : theme) (v : value) : value :=
  match v with
  | VNumber n => VNumber (num_mul (Finite (typography_lineHeight th)) n)
  | _ => js_or v (VNumber (num_of_Z 0))
  end.

Definition propToStyle (prop : string) (v : value) (th : theme)
  : option (gmap string value) :=
  if elem prop plainProps then Some {[ prop := v ]}
  else if elem prop rhythmProps then Some {[ prop := rhythmOrString th v ]}
  else if elem prop shorthandProps then
    let '(d1, d2) := directionMapping prop in
    Some (<[ d2 := rhythmOrString th v ]> {[ d1 := rhythmOrString th v ]})
  else if String.eqb prop "margin" then
    Some (<[ "marginTop" := rhythmOrString th v ]>
         (<[ "marginRight" := rhythmOrString th v ]>
         (<[ "marginLeft" := rhythmOrString th v ]>
          {[ "marginBottom" := rhythmOrString th v ]})))
  else if String.eqb prop "padding" then
    Some (<[ "paddingTop" := rhythmOrString th v ]>
         (<[ "paddingRight" := rhythmOrString th v ]>
         (<[ "paddingLeft" := rhythmOrString th v ]>
          {[ "paddingBottom" := rhythmOrString th v ]})))
  else if String.eqb prop "backgroundColor" then
    Some {[ "backgroundColor" := color th v ]}
  else if String.eqb prop "borderRadius" then
    Some {[ "borderRadius" := js_or v (VNumber (Finite (border_radius th))) ]}
  else None.

(** One step of the [reduce] in [propsToStyle]; [{...style, ...propStyle}]
    is the union in which [propStyle] wins. *)
Definition propsToStyle_step (th : theme) (props : list (string * value))
    (style : gmap string value) (prop : string) : gmap string value :=
  if String.eqb prop "theme" then style
  else match propToStyle prop (get props prop) th with
       | None => style
       | Some propStyle => propStyle ∪ style
       end.

Definition propsToStyle (th : theme) (props : list (string * value))
  : gmap string value :=
  fold_left (propsToStyle_step th props) (keys props) ∅.

Definition rhythmWarning (paddingProp direction : string) : string :=
  "Increase " +:+ paddingProp +:+ " to ensure " +:+ direction +:+ " rhythm. "
  +:+ "Use suppressRhythmWarning prop to suppress this warning.".

(** The constants of one pass of the [reduce] in [adjustPaddingForRhythm]:
    [adjust], the subtraction [paddingValue - borderWidth], and
    [canCompensate]. *)
Definition adjust (border : value) (prop : string) : bool :=
  strict_eq border (VBool true)
  || strict_eq border (VString (toLowerCase prop)).

Definition reduced (borderWidth paddingValue : value) : number :=
  num_sub (toNumber paddingValue) (toNumber borderWidth).

Definition canCompensate (borderWidth paddingValue : value) : value :=
  js_and paddingValue (VBool (num_ge0 (reduced borderWidth paddingValue))).

Definition outline : gmap string value :=
  {[ "outline" := VString "solid 1px red" ]}.

(** One step of that [reduce]: the accumulator is the padding overlay and
    the warnings emitted so far. *)
Definition adjustPadding_step (suppressRhythmWarning border borderWidth : value)
    (style : gmap string value)
    (acc : gmap string value * list string) (prop : string)
  : gmap string value * list string :=
  let '(padding, log) := acc in
  if negb (adjust border prop) then (padding, log)
  else
    let paddingProp := "padding" +:+ prop in
    let paddingValue := style_get style paddingProp in
    if is_string paddingValue
    then (<[ paddingProp := paddingValue ]> padding, log)
    else if negb (truthy (canCompensate borderWidth paddingValue)) then
      if truthy suppressRhythmWarning then (∅, log)
      else
        let direction :=
          if String.eqb prop "Left" || String.eqb prop "Right"
          then "horizontal" else "vertical" in
        (<[ paddingProp := VNumber (reduced borderWidth paddingValue) ]>
           (padding ∪ outline),
         log ++ [rhythmWarning paddingProp direction])
    else
      (<[ paddingProp := VNumber (reduced borderWidth paddingValue) ]>
         (padding ∪ ∅), log).

Definition edges : list string := ["Bottom"; "Left"; "Right"; "Top"].

Definition adjustPaddingForRhythm
    (suppressRhythmWarning border borderWidth : value)
    (style : gmap string value) : gmap string value * list string :=
  if negb (truthy borderWidth) then (∅, [])
  else fold_left
         (adjustPadding_step suppressRhythmWarning border borderWidth style)
         edges (∅, []).

(** [s.charAt(0).toUpperCase() + s.slice(1)]: an ASCII first character is
    upper-cased in place; the empty string stays empty. *)
Definition capitalise (s : string) : string :=
  match s with
  | EmptyString => EmptyString
  | String c r =>
      if (nat_of_ascii c <? 128)%nat then String (ascii_upper c) r
      else unicodeCapitalise s
  end.

(** The constants of [borderWithRhythm].  Reading [charAt] off a value that
    is neither [true] nor a string is a TypeError. *)
Definition borderProp (border : value) : result string :=
  if strict_eq border (VBool true) then Ok "border"
  else match border with
       | VString s => Ok ("border" +:+ capitalise s)
       | _ => Throw TypeError
       end.

Definition borderWidth (th : theme) (props : list (string * value)) : value :=
  js_or (get props "borderWidth") (VNumber (Finite (border_width th))).

Definition borderColor (th : theme) (props : list (string * value)) : value :=
  if truthy (get props "borderColor")
  then color th (get props "borderColor")
  else color th (VString "gray").

Definition borderString (width col : value) : string :=
  "solid " +:+ toString width +:+ "px " +:+ toString col.

Definition borderWithRhythm (th : theme) (props : list (string * value))
    (style : gmap string value) : result (gmap string value * list string) :=
  if negb (truthy (get props "border")) then Ok (style, [])
  else
    bp ← borderProp (get props "border");
    let '(padding, log) :=
      adjustPaddingForRhythm (get props "suppressRhythmWarning")
        (get props "border") (borderWidth th props) style in
    Ok (<[ bp := VString (borderString (borderWidth th props)
                            (borderColor th props)) ]> padding,
        log).

(** The style function of [Box]: the computed style and the warnings. *)
Definition Box (th : theme) (props : list (string * value))
  : result (gmap string value * list string) :=
  let style := propsToStyle th props in
  overlay ← borderWithRhythm th props style;
  Ok (overlay.1 ∪ style, overlay.2).

(** Reading a resolution's outcome. *)
Definition computed (r : result (gmap string value * list string)) (k : string)
  : option value :=
  match r with
  | Ok (style, _) => style !! k
  | Throw _ => None
  end.

Definition warnings (r : result (gmap string value * list string))
  : list string :=
  match r with
  | Ok (_, log) => log
  | Throw _ => []
  end.

(** ** Vocabulary of the properties *)

Definition spacingProps : list string :=
  rhythmProps ++ shorthandProps ++ ["margin"; "padding"].

(** The edge fails: it is adjusted, its padding is no string, and it
    cannot be compensated. *)
Definition fails (b bw : value) (style : gmap string value) (e : string) : bool :=
  adjust b e
  && negb (is_string (style_get style ("padding" +:+ e)))
  && negb (truthy (canCompensate bw (style_get style ("padding" +:+ e)))).

(** What an entry of the overlay [padding] can be: the outline flag, or
    the padding of an adjusted edge, which is the mapped string, or the
    mapped value minus the border width; in the last case the edge was
    compensated or the overlay carries the outline flag. *)
Definition overlay_entry (b bw : value) (style padding : gmap string value)
    (k : string) (x : value) : Prop :=
  (k = "outline" ∧ x = VString "solid 1px red")
  ∨ ∃ e, e ∈ edges ∧ k = "padding" +:+ e ∧ adjust b e = true
         ∧ ((is_string (style_get style k) = true ∧ x = style_get style k)
            ∨ (is_string (style_get style k) = false
               ∧ x = VNumber (reduced bw (style_get style k))
               ∧ (truthy (canCompensate bw (style_get style k)) = true
                  ∨ padding !! "outline" = Some (VString "solid 1px red")))).

(** [border?: true | TopBottomLeftRight]: absent (or falsy), [true], or a
    string. *)
Definition typedBorder (b : value) : bool :=
  negb (truthy b) || strict_eq b (VBool true) || is_string b.





(** The props the mapper's table lists; every other name is ignored. *)
Definition recognisedProps : list string :=
  plainProps ++ spacingProps ++ ["backgroundColor"; "borderRadius"].

(** The direct props a shorthand stands for, in the order the mapper
    writes them. *)
Definition expansion (prop : string) : list string :=
  if String.eqb prop "margin"
  then ["marginBottom"; "marginLeft"; "marginRight"; "marginTop"]
  else if String.eqb prop "padding"
  then ["paddingBottom"; "paddingLeft"; "paddingRight"; "paddingTop"]
  else [(directionMapping prop).1; (directionMapping prop).2].

(** The style keys a prop writes. *)
Definition targets (prop : string) : list string :=
  if elem prop plainProps || elem prop rhythmProps then [prop]
  else if elem prop shorthandProps || String.eqb prop "margin"
          || String.eqb prop "padding" then expansion prop
  else if String.eqb prop "backgroundColor" || String.eqb prop "borderRadius"
  then [prop]
  else [].

(** No two props of the list write a common style key. *)
Fixpoint conflictFree (props : list string) : bool :=
  match props with
  | [] => true
  | p :: rest =>
      forallb (λ p', forallb (λ k, negb (elem k (targets p'))) (targets p)) rest
      && conflictFree rest
  end.

(** No two distinct props of the list write a common key. *)
Definition disjointTargets (ks : list string) : Prop :=
  ∀ p p' k, p ∈ ks → p' ∈ ks → p ≠ p' →
            elem k (targets p) = true → elem k (targets p') = false.

(** The merge step of the mapper on a prop and its own value. *)
Definition propsToStyle_pair (th : theme) (style : gmap string value)
    (pv : string * value) : gmap string value :=
  if String.eqb pv.1 "theme" then style
  else match propToStyle pv.1 pv.2 th with
       | None => style
       | Some propStyle => propStyle ∪ style
       end.

(** [direction] in [adjustPaddingForRhythm]. *)
Definition direction (prop : string) : string :=
  if String.eqb prop "Left" || String.eqb prop "Right"
  then "horizontal" else "vertical".

(** ** Properties *)

Lemma Qred_zero_r (h : Q) : Qred (h * 0) = 0%Q.
Proof.
  apply (Qred_complete (h * 0) 0). ring.
Qed.

(** *** Requests *)

Lemma get_elem_of (props : list (string * value)) k v :
  NoDup (keys props) → (k, v) ∈ props → get props k = v.
Proof.
  induction props as [|[k' v'] props IH]; intros Hnd Hin.
  - by apply elem_of_nil in Hin.
  - apply NoDup_cons in Hnd as [Hk' Hnd]. cbn.
    apply elem_of_cons in Hin as [Heq|Hin].
    + injection Heq as -> ->. by rewrite String.eqb_refl.
    + destruct (String.eqb_spec k' k) as [->|_]; [|by apply IH].
      exfalso. apply Hk'. by apply (list_elem_of_fmap_2 fst _ (k, v)).
Qed.

Lemma get_key_elem_of (props : list (string * value)) k :
  k ∈ keys props → (k, get props k) ∈ props.
Proof.
  induction props as [|[k' v'] props IH]; cbn; intros Hin.
  - by apply elem_of_nil in Hin.
  - destruct (String.eqb_spec k' k) as [->|Hne]; [by left|].
    right. apply IH. by apply elem_of_cons in Hin as [?|?].
Qed.

(** *** The mapper: the last prop that writes a key wins *)

Lemma propsToStyle_step_writes th props style prop ps k x :
  prop ≠ "theme" →
  propToStyle prop (get props prop) th = Some ps →
  ps !! k = Some x →
  propsToStyle_step th props style prop !! k = Some x.
Proof.
  intros Hne Hps Hk. unfold propsToStyle_step.
  destruct (String.eqb_spec prop "theme") as [?|_]; [done|].
  rewrite Hps. by apply lookup_union_Some_l.
Qed.

Lemma propsToStyle_step_keeps th props style prop k :
  (∀ ps, propToStyle prop (get props prop) th = Some ps → ps !! k = None) →
  propsToStyle_step th props style prop !! k = style !! k.
Proof.
  intros Hps. unfold propsToStyle_step.
  destruct (String.eqb prop "theme"); [done|].
  destruct (propToStyle prop (get props prop) th) as [ps|] eqn:E; [|done].
  apply lookup_union_r. by apply Hps.
Qed.

Lemma propsToStyle_fold_keeps th props l style k :
  (∀ p ps, p ∈ l → propToStyle p (get props p) th = Some ps → ps !! k = None) →
  fold_left (propsToStyle_step th props) l style !! k = style !! k.
Proof.
  revert style. induction l as [|p l IH]; intros style Hl; [done|].
  cbn [fold_left]. rewrite IH.
  - apply propsToStyle_step_keeps. intros ps. apply Hl. by left.
  - intros p' ps' Hin. apply Hl. by right.
Qed.

Lemma propsToStyle_last_writer th before prop v after ps k x :
  NoDup (keys (before ++ (prop, v) :: after)) →
  propToStyle prop v th = Some ps →
  ps !! k = Some x →
  (∀ p' v' ps', (p', v') ∈ after →
     propToStyle p' v' th = Some ps' → ps' !! k = None) →
  propsToStyle th (before ++ (prop, v) :: after) !! k = Some x.
Proof.
  intros Hnd Hps Hk Hafter.
  assert (Hne : prop ≠ "theme") by (intros ->; discriminate Hps).
  set (props := before ++ (prop, v) :: after) in *.
  assert (Hget : ∀ p' v', (p', v') ∈ props → get props p' = v')
    by (intros; by apply get_elem_of).
  unfold propsToStyle, keys. subst props.
  rewrite fmap_app, fold_left_app. cbn [fmap list_fmap fold_left fst].
  rewrite propsToStyle_fold_keeps.
  - apply propsToStyle_step_writes with ps; [done| |done].
    rewrite (Hget prop v); [done|]. apply elem_of_app. right. by left.
  - intros p' ps' Hin Hps'.
    apply list_elem_of_fmap in Hin as [[p'' v'] [-> Hin]]. cbn in Hps'.
    apply (Hafter p'' v' ps' Hin).
    rewrite <- (Hget p'' v'); [done|]. apply elem_of_app. right. by right.
Qed.

Lemma Qred_inject_Z (z : Z) : Qred (inject_Z z) = inject_Z z.
Proof. apply Qred_identity. cbn. apply Z.gcd_1_r. Qed.

Lemma rhythmOrString_number th q (z : Z) :
  typography_lineHeight th * q == inject_Z z →
  rhythmOrString th (VNumber (Finite q)) = VNumber (num_of_Z z).
Proof.
  intros H. cbn. unfold num_of_Z. do 2 f_equal.
  rewrite <- (Qred_inject_Z z). by apply Qred_complete.
Qed.

Ltac solve_NoDup := apply (bool_decide_unpack _); by vm_compute.

(** C1 (amended). The mapper merges the props in the order the request
    enumerates them, so for every output key the last enumerated prop that
    writes it wins: a more specific prop overrides a more general one when
    it is enumerated after it.  In particular [{margin: 1, marginLeft: 0.5}],
    in this order and with line height 20, yields [marginLeft = 10] and
    [marginRight = marginTop = marginBottom = 20]. *)
Theorem propsToStyle_enumeration_order :
  (∀ th before prop v after ps k x,
     NoDup (keys (before ++ (prop, v) :: after)) →
     propToStyle prop v th = Some ps →
     ps !! k = Some x →
     (∀ p' v' ps', (p', v') ∈ after →
        propToStyle p' v' th = Some ps' → ps' !! k = None) →
     propsToStyle th (before ++ (prop, v) :: after) !! k = Some x)
  ∧ (∀ th, typography_lineHeight th == 20 →
       propsToStyle th marginThenLeft !! "marginLeft"
         = Some (VNumber (num_of_Z 10))
       ∧ propsToStyle th marginThenLeft !! "marginRight"
         = Some (VNumber (num_of_Z 20))
       ∧ propsToStyle th marginThenLeft !! "marginTop"
         = Some (VNumber (num_of_Z 20))
       ∧ propsToStyle th marginThenLeft !! "marginBottom"
         = Some (VNumber (num_of_Z 20))).
Proof.
  split; [apply propsToStyle_last_writer|].
  intros th Hh.
  assert (H10 : rhythmOrString th (VNumber (Finite (1 # 2)))
                = VNumber (num_of_Z 10))
    by (apply rhythmOrString_number; rewrite Hh; reflexivity).
  assert (H20 : rhythmOrString th (VNumber (num_of_Z 1))
                = VNumber (num_of_Z 20))
    by (apply rhythmOrString_number; rewrite Hh; reflexivity).
  split.
  { rewrite <- H10.
    eapply (propsToStyle_last_writer th [("margin", VNumber (num_of_Z 1))]
              "marginLeft" _ []);
      [solve_NoDup|reflexivity|reflexivity|].
    intros ??? Hin. by apply elem_of_nil in Hin. }
  repeat split; rewrite <- H20;
    (eapply (propsToStyle_last_writer th [] "margin" _
               [("marginLeft", VNumber (Finite (1 # 2)))]);
     [solve_NoDup|reflexivity|reflexivity|]);
    intros p' v' ps' Hin Hps';
    apply list_elem_of_singleton in Hin; injection Hin as -> ->;
    injection Hps' as <-; reflexivity.
Qed.

(** C3 (amended). Every [backgroundColor] value, ['transparent'] included,
    is looked up in [theme.colors]; ['transparent'] comes out unchanged
    exactly when the theme maps that name to itself. *)
Theorem backgroundColor_lookup (th : theme) :
  (∀ v, propToStyle "backgroundColor" v th
        = Some {[ "backgroundColor" := color th v ]})
  ∧ (propToStyle "backgroundColor" (VString "transparent") th
       = Some {[ "backgroundColor" := VString "transparent" ]}
     ↔ colors th !! "transparent" = Some "transparent").
Proof.
  split; [reflexivity|].
  change (propToStyle "backgroundColor" (VString "transparent") th)
    with (Some ({[ "backgroundColor" := color th (VString "transparent") ]}
                : gmap string value)).
  unfold color. cbn [toString]. split.
  - intros H. apply (inj Some) in H.
    apply (f_equal (.!! "backgroundColor")) in H.
    rewrite !lookup_singleton_eq in H.
    destruct (colors th !! "transparent"); [by injection H as ->|done].
  - by intros ->.
Qed.

(** *** Every entry of the mapped style comes from one prop *)

Lemma elem_app k l1 l2 : elem k (l1 ++ l2) = elem k l1 || elem k l2.
Proof. apply existsb_app. Qed.

Lemma elem_true k l : elem k l = true ↔ k ∈ l.
Proof.
  unfold elem. rewrite existsb_exists. split.
  - intros [x [Hin Hx]]. apply String.eqb_eq in Hx as ->.
    by apply list_elem_of_In.
  - intros Hin. exists k. split; [by apply list_elem_of_In|].
    apply String.eqb_refl.
Qed.

Lemma propToStyle_entry prop v th ps k x :
  propToStyle prop v th = Some ps →
  ps !! k = Some x →
  (elem prop plainProps = true ∧ k = prop ∧ x = v)
  ∨ (elem prop spacingProps = true ∧ elem k rhythmProps = true
     ∧ x = rhythmOrString th v)
  ∨ (prop = "backgroundColor" ∧ k = "backgroundColor" ∧ x = color th v)
  ∨ (prop = "borderRadius" ∧ k = "borderRadius"
     ∧ x = js_or v (VNumber (Finite (border_radius th)))).
Proof.
  unfold propToStyle, spacingProps. rewrite !elem_app.
  destruct (elem prop plainProps) eqn:E1.
  { intros [= <-] [-> ->]%lookup_singleton_Some. by left. }
  destruct (elem prop rhythmProps) eqn:E2.
  { intros [= <-] [-> ->]%lookup_singleton_Some. right; left. by rewrite E2. }
  destruct (elem prop shorthandProps) eqn:E3.
  { cbn [orb]. unfold directionMapping.
    intros Hps Hk. right; left.
    repeat destruct (String.eqb prop _); injection Hps as <-;
      repeat (apply lookup_insert_Some in Hk as [[<- <-]|[_ Hk]]; [done|]);
      by apply lookup_singleton_Some in Hk as [<- <-]. }
  cbn [orb].
  destruct (String.eqb_spec prop "margin") as [->|_].
  { intros [= <-] Hk. right; left.
    repeat (apply lookup_insert_Some in Hk as [[<- <-]|[_ Hk]]; [done|]).
    by apply lookup_singleton_Some in Hk as [<- <-]. }
  destruct (String.eqb_spec prop "padding") as [->|_].
  { intros [= <-] Hk. right; left.
    repeat (apply lookup_insert_Some in Hk as [[<- <-]|[_ Hk]]; [done|]).
    by apply lookup_singleton_Some in Hk as [<- <-]. }
  destruct (String.eqb_spec prop "backgroundColor") as [->|_].
  { intros [= <-] [<- <-]%lookup_singleton_Some. by right; right; left. }
  destruct (String.eqb_spec prop "borderRadius") as [->|_]; [|done].
  intros [= <-] [<- <-]%lookup_singleton_Some. by right; right; right.
Qed.

Lemma propsToStyle_fold_entry th props l style k x :
  fold_left (propsToStyle_step th props) l style !! k = Some x →
  style !! k = Some x
  ∨ ∃ prop ps, prop ∈ l ∧ propToStyle prop (get props prop) th = Some ps
               ∧ ps !! k = Some x.
Proof.
  revert style. induction l as [|p l IH]; intros style; [by left|].
  cbn [fold_left]. intros [H|(prop & ps & Hin & Hps & Hk)]%IH.
  - unfold propsToStyle_step in H.
    destruct (String.eqb p "theme"); [by left|].
    destruct (propToStyle p (get props p) th) as [ps|] eqn:E; [|by left].
    apply lookup_union_Some_raw in H as [H|[_ H]]; [|by left].
    right. exists p, ps. split; [by left|done].
  - right. exists prop, ps. split; [by right|done].
Qed.

Lemma propsToStyle_entry th props k x :
  propsToStyle th props !! k = Some x →
  ∃ prop v ps, (prop, v) ∈ props ∧ propToStyle prop v th = Some ps
               ∧ ps !! k = Some x.
Proof.
  intros [H|(prop & ps & Hin & Hps & Hk)]%propsToStyle_fold_entry; [done|].
  exists prop, (get props prop), ps. split; [|done].
  by apply get_key_elem_of.
Qed.

(** *** The edge reduction, step by step *)

Lemma padding_ne_outline e : "padding" +:+ e ≠ "outline".
Proof. discriminate. Qed.

Lemma padding_inj e1 e2 : "padding" +:+ e1 = "padding" +:+ e2 → e1 = e2.
Proof. intros H. by injection H. Qed.

Lemma borderProp_prefix b bp : borderProp b = Ok bp → ∃ r, bp = "border" +:+ r.
Proof.
  unfold borderProp. destruct (strict_eq b (VBool true)).
  - intros [= <-]. by exists "".
  - destruct b; try done. intros [= <-]. by eexists.
Qed.

Section step.
Context (sup b bw : value) (style padding : gmap string value)
        (log : list string) (e : string).

Let pk := "padding" +:+ e.
Let pv := style_get style pk.

Lemma step_skip :
  adjust b e = false →
  adjustPadding_step sup b bw style (padding, log) e = (padding, log).
Proof. unfold adjustPadding_step. by intros ->. Qed.

Lemma step_string :
  adjust b e = true → is_string pv = true →
  adjustPadding_step sup b bw style (padding, log) e
  = (<[ pk := pv ]> padding, log).
Proof. unfold adjustPadding_step. fold pk pv. by intros -> ->. Qed.

Lemma step_compensate :
  adjust b e = true → is_string pv = false →
  truthy (canCompensate bw pv) = true →
  adjustPadding_step sup b bw style (padding, log) e
  = (<[ pk := VNumber (reduced bw pv) ]> padding, log).
Proof.
  unfold adjustPadding_step. fold pk pv. intros -> -> ->. cbn [negb].
  by rewrite (right_id_L ∅ (∪)).
Qed.

Lemma step_discard :
  adjust b e = true → is_string pv = false →
  truthy (canCompensate bw pv) = false →
  truthy sup = true →
  adjustPadding_step sup b bw style (padding, log) e = (∅, log).
Proof. unfold adjustPadding_step. fold pk pv. by intros -> -> -> ->. Qed.

Lemma step_warn :
  adjust b e = true → is_string pv = false →
  truthy (canCompensate bw pv) = false →
  truthy sup = false →
  adjustPadding_step sup b bw style (padding, log) e
  = (<[ pk := VNumber (reduced bw pv) ]> (padding ∪ outline),
     log ++ [rhythmWarning pk
               (if String.eqb e "Left" || String.eqb e "Right"
                then "horizontal" else "vertical")]).
Proof. unfold adjustPadding_step. fold pk pv. by intros -> -> -> ->. Qed.
End step.

Ltac step_cases sup b bw style e :=
  let Ha := fresh "Ha" in let Hs := fresh "Hs" in
  let Hc := fresh "Hc" in let Hw := fresh "Hw" in
  destruct (adjust b e) eqn:Ha;
    [destruct (is_string (style_get style ("padding" +:+ e))) eqn:Hs;
      [rewrite (step_string sup b bw style _ _ e Ha Hs)
      |destruct (truthy (canCompensate bw (style_get style ("padding" +:+ e))))
         eqn:Hc;
        [rewrite (step_compensate sup b bw style _ _ e Ha Hs Hc)
        |destruct (truthy sup) eqn:Hw;
          [rewrite (step_discard sup b bw style _ _ e Ha Hs Hc Hw)
          |rewrite (step_warn sup b bw style _ _ e Ha Hs Hc Hw)]]]
    |rewrite (step_skip sup b bw style _ _ e Ha)].

(** With the warning suppressed the reduction neither warns nor flags. *)
Lemma step_suppressed sup b bw style acc e :
  truthy sup = true →
  acc.1 !! "outline" = None → acc.2 = [] →
  (adjustPadding_step sup b bw style acc e).1 !! "outline" = None
  ∧ (adjustPadding_step sup b bw style acc e).2 = [].
Proof.
  intros Hsup Ho Hl. destruct acc as [padding log]. cbn in Ho, Hl.
  step_cases sup b bw style e; cbn [fst snd]; try done;
    by rewrite lookup_insert_ne by apply padding_ne_outline.
Qed.

Lemma adjustPadding_suppressed sup b bw style :
  truthy sup = true →
  (adjustPaddingForRhythm sup b bw style).1 !! "outline" = None
  ∧ (adjustPaddingForRhythm sup b bw style).2 = [].
Proof.
  intros Hsup. unfold adjustPaddingForRhythm.
  destruct (truthy bw); [|done]. cbn [negb].
  assert (H : ∀ l acc, acc.1 !! "outline" = None → acc.2 = [] →
            (fold_left (adjustPadding_step sup b bw style) l acc).1
              !! "outline" = None
            ∧ (fold_left (adjustPadding_step sup b bw style) l acc).2 = []).
  { induction l as [|e l IH]; intros acc Ho Hl; [done|].
    cbn [fold_left]. by apply IH; apply step_suppressed. }
  by apply H.
Qed.

(** An entry of the overlay survives the later edges unless one of them
    discards the overlay. *)
Lemma step_keeps sup b bw style acc e k x :
  acc.1 !! k = Some x →
  k ≠ "padding" +:+ e →
  truthy sup = false ∨ fails b bw style e = false →
  (adjustPadding_step sup b bw style acc e).1 !! k = Some x.
Proof.
  intros Hk Hne Hok. destruct acc as [padding log]. cbn in Hk.
  unfold fails in Hok.
  step_cases sup b bw style e; cbn [fst];
    rewrite ?lookup_insert_ne by done; try done.
  - by destruct Hok.
  - by apply lookup_union_Some_l.
Qed.

Lemma fold_keeps sup b bw style l acc k x :
  acc.1 !! k = Some x →
  (∀ e, e ∈ l → k ≠ "padding" +:+ e
                ∧ (truthy sup = false ∨ fails b bw style e = false)) →
  (fold_left (adjustPadding_step sup b bw style) l acc).1 !! k = Some x.
Proof.
  revert acc. induction l as [|e l IH]; intros acc Hk Hl; [done|].
  cbn [fold_left]. apply IH.
  - apply step_keeps; [done|apply Hl; by left ..].
  - intros e' Hin. apply Hl. by right.
Qed.

Lemma overlay_entry_mono b bw style (P P' : gmap string value) k x :
  (P !! "outline" = Some (VString "solid 1px red") →
   P' !! "outline" = Some (VString "solid 1px red")) →
  overlay_entry b bw style P k x → overlay_entry b bw style P' k x.
Proof.
  intros Hmono [H|(e & He & -> & Ha & [H|(Hs & Hx & [Hc|Ho])])];
    [by left|right; exists e; repeat split; try done ..].
  - by left.
  - right. repeat split; try done. by left.
  - right. repeat split; try done. right. by apply Hmono.
Qed.

Lemma step_entries sup b bw style padding log e :
  e ∈ edges →
  (∀ k x, padding !! k = Some x → overlay_entry b bw style padding k x) →
  ∀ k x, (adjustPadding_step sup b bw style (padding, log) e).1 !! k = Some x →
         overlay_entry b bw style
           (adjustPadding_step sup b bw style (padding, log) e).1 k x.
Proof.
  intros He IH k x.
  step_cases sup b bw style e; cbn [fst]; [..|by apply IH].
  - intros [[<- <-]|[Hne Hk]]%lookup_insert_Some.
    + right. exists e. repeat split; try done. by left.
    + eapply overlay_entry_mono; [|by apply IH].
      by rewrite lookup_insert_ne by apply padding_ne_outline.
  - intros [[<- <-]|[Hne Hk]]%lookup_insert_Some.
    + right. exists e. repeat split; try done. right. repeat split; try done.
      by left.
    + eapply overlay_entry_mono; [|by apply IH].
      by rewrite lookup_insert_ne by apply padding_ne_outline.
  - by rewrite lookup_empty.
  - assert (Hout : <[ "padding" +:+ e
                      := VNumber (reduced bw (style_get style ("padding" +:+ e))) ]>
                     (padding ∪ outline) !! "outline"
                   = Some (VString "solid 1px red")).
    { rewrite lookup_insert_ne by apply padding_ne_outline.
      destruct (padding !! "outline") as [o|] eqn:Eo.
      - apply lookup_union_Some_l.
        destruct (IH _ _ Eo) as [[_ ->]|(e' & _ & He' & _)]; [done|].
        by destruct (padding_ne_outline e').
      - by rewrite lookup_union_r. }
    intros [[<- <-]|[Hne Hk]]%lookup_insert_Some.
    + right. exists e. repeat split; try done. right. repeat split; try done.
      by right.
    + apply lookup_union_Some_raw in Hk as [Hk|[_ Hk]].
      * eapply overlay_entry_mono; [|by apply IH]. done.
      * unfold outline in Hk.
        apply lookup_singleton_Some in Hk as [<- <-]. by left.
Qed.

Lemma fold_entries sup b bw style l acc :
  (∀ e, e ∈ l → e ∈ edges) →
  (∀ k x, acc.1 !! k = Some x → overlay_entry b bw style acc.1 k x) →
  ∀ k x,
    (fold_left (adjustPadding_step sup b bw style) l acc).1 !! k = Some x →
    overlay_entry b bw style
      (fold_left (adjustPadding_step sup b bw style) l acc).1 k x.
Proof.
  revert acc. induction l as [|e l IH]; intros acc Hl Hacc; [done|].
  cbn [fold_left]. apply IH.
  - intros e' Hin. apply Hl. by right.
  - destruct acc as [padding log]. apply step_entries; [|done].
    apply Hl. by left.
Qed.

Lemma adjustPadding_entries sup b bw style k x :
  (adjustPaddingForRhythm sup b bw style).1 !! k = Some x →
  overlay_entry b bw style (adjustPaddingForRhythm sup b bw style).1 k x.
Proof.
  unfold adjustPaddingForRhythm. destruct (truthy bw); cbn [negb].
  - apply fold_entries; [done|]. intros k' x'. cbn [fst]. by rewrite lookup_empty.
  - cbn [fst]. by rewrite lookup_empty.
Qed.

Lemma adjustPadding_keys sup b bw style k :
  k ≠ "outline" → (∀ e, k ≠ "padding" +:+ e) →
  (adjustPaddingForRhythm sup b bw style).1 !! k = None.
Proof.
  intros Ho Hp.
  destruct ((adjustPaddingForRhythm sup b bw style).1 !! k) as [x|] eqn:E;
    [|done].
  apply adjustPadding_entries in E as [[? _]|(e & _ & ? & _)]; [done|].
  by destruct (Hp e).
Qed.

(** *** Box, unfolded *)

Lemma Box_no_border th props :
  truthy (get props "border") = false →
  Box th props = Ok (propsToStyle th props, []).
Proof.
  intros H. unfold Box, borderWithRhythm. rewrite H. cbn.
  by rewrite (idemp (∪)).
Qed.

Lemma borderWithRhythm_border th props style bp :
  truthy (get props "border") = true →
  borderProp (get props "border") = Ok bp →
  borderWithRhythm th props style
  = Ok (<[ bp := VString (borderString (borderWidth th props)
                            (borderColor th props)) ]>
          (adjustPaddingForRhythm (get props "suppressRhythmWarning")
             (get props "border") (borderWidth th props) style).1,
        (adjustPaddingForRhythm (get props "suppressRhythmWarning")
           (get props "border") (borderWidth th props) style).2).
Proof.
  intros H Hbp. unfold borderWithRhythm. rewrite H, Hbp. cbn.
  by destruct (adjustPaddingForRhythm _ _ _ _).
Qed.

Lemma Box_border th props bp :
  truthy (get props "border") = true →
  borderProp (get props "border") = Ok bp →
  Box th props
  = Ok (<[ bp := VString (borderString (borderWidth th props)
                            (borderColor th props)) ]>
          (adjustPaddingForRhythm (get props "suppressRhythmWarning")
             (get props "border") (borderWidth th props)
             (propsToStyle th props)).1
        ∪ propsToStyle th props,
        (adjustPaddingForRhythm (get props "suppressRhythmWarning")
           (get props "border") (borderWidth th props)
           (propsToStyle th props)).2).
Proof.
  intros H Hbp. unfold Box.
  by rewrite (borderWithRhythm_border th props _ bp).
Qed.

(** *** Arithmetic on concrete numbers *)

Lemma num_sub_Z x y (z : Z) :
  x - y == inject_Z z → num_sub (Finite x) (Finite y) = num_of_Z z.
Proof.
  intros H. unfold num_sub, num_of_Z. f_equal.
  rewrite <- (Qred_inject_Z z). by apply Qred_complete.
Qed.

Lemma numberToString_Z q (z : Z) :
  q == inject_Z z → (Z.abs z <? 10 ^ 21)%Z = true →
  numberToString (Finite q) = Z_to_string z.
Proof.
  intros H Hz. unfold numberToString.
  rewrite (Qred_complete _ _ H), Qred_inject_Z. cbn [inject_Z Qnum Qden].
  by rewrite Pos.eqb_refl, Hz.
Qed.

Lemma num_truthy_nonzero q : ¬ q == 0 → num_truthy (Finite q) = true.
Proof.
  intros H. unfold num_truthy.
  destruct (Qeq_bool q 0) eqn:E; [|done]. by apply Qeq_bool_iff in E.
Qed.





(** C7 (amended). The stroke width is [props.borderWidth] whenever that
    value is truthy and [theme.border.width] for every falsy value, that
    is when [borderWidth] is absent and also when it is [0], NaN, [false],
    [null] or the empty string; the same width goes into the padding
    compensation and into the border string. *)
Theorem borderWidth_or_theme th props :
  (truthy (get props "borderWidth") = true →
   borderWidth th props = get props "borderWidth")
  ∧ (truthy (get props "borderWidth") = false →
     borderWidth th props = VNumber (Finite (border_width th)))
  ∧ (get props "borderWidth" = VUndefined →
     borderWidth th props = VNumber (Finite (border_width th)))
  ∧ (get props "borderWidth" = VNumber (num_of_Z 0) →
     borderWidth th props = VNumber (Finite (border_width th)))
  ∧ (∀ style bp,
       truthy (get props "border") = true →
       borderProp (get props "border") = Ok bp →
       borderWithRhythm th props style
       = Ok (<[ bp := VString (borderString (borderWidth th props)
                                 (borderColor th props)) ]>
               (adjustPaddingForRhythm (get props "suppressRhythmWarning")
                  (get props "border") (borderWidth th props) style).1,
             (adjustPaddingForRhythm (get props "suppressRhythmWarning")
                (get props "border") (borderWidth th props) style).2)).
Proof.
  unfold borderWidth, js_or. repeat split.
  - by intros ->.
  - by intros ->.
  - by intros ->.
  - by intros ->.
  - apply borderWithRhythm_border.
Qed.

Lemma propsToStyle_keys th props k :
  elem k plainProps = false → elem k rhythmProps = false →
  k ≠ "backgroundColor" → k ≠ "borderRadius" →
  propsToStyle th props !! k = None.
Proof.
  intros Hp Hr Hb Hbr.
  destruct (propsToStyle th props !! k) as [x|] eqn:E; [|done].
  apply propsToStyle_entry in E as (prop & v & ps & _ & Hps & Hk).
  destruct (propToStyle_entry _ _ _ _ _ _ Hps Hk)
    as [(H & -> & _)|[(_ & H & _)|[(_ & H & _)|(_ & H & _)]]]; congruence.
Qed.

Lemma Box_throw th props e :
  truthy (get props "border") = true →
  borderProp (get props "border") = Throw e →
  Box th props = Throw e.
Proof.
  intros H Hbp. unfold Box, borderWithRhythm. by rewrite H, Hbp.
Qed.

(** C6. The request [{border: true, paddingTop: false,
    suppressRhythmWarning: true}] resolves without a warning and without an
    outline key, and so does every request that sets
    [suppressRhythmWarning]; in the edge reduction a failing edge then
    returns the empty overlay, dropping what was accumulated, and emits
    nothing. *)
Theorem suppressed_failure_discards th :
  warnings (Box th borderedSuppressed) = []
  ∧ computed (Box th borderedSuppressed) "outline" = None
  ∧ (∀ props, truthy (get props "suppressRhythmWarning") = true →
       warnings (Box th props) = []
       ∧ computed (Box th props) "outline" = None)
  ∧ (∀ sup b bw style padding log e,
       truthy sup = true → fails b bw style e = true →
       adjustPadding_step sup b bw style (padding, log) e = (∅, log)).
Proof.
  assert (Hgen : ∀ props, truthy (get props "suppressRhythmWarning") = true →
            warnings (Box th props) = []
            ∧ computed (Box th props) "outline" = None).
  { intros props Hsup.
    assert (Hstyle : propsToStyle th props !! "outline" = None)
      by by apply propsToStyle_keys.
    destruct (truthy (get props "border")) eqn:Hb;
      [|by rewrite Box_no_border].
    destruct (borderProp (get props "border")) as [bp|err] eqn:Hbp;
      [|by rewrite (Box_throw th props err)].
    rewrite (Box_border th props bp) by done. cbn [warnings computed].
    destruct (adjustPadding_suppressed (get props "suppressRhythmWarning")
                (get props "border") (borderWidth th props)
                (propsToStyle th props) Hsup) as [Ho Hl].
    split; [done|]. apply lookup_union_None. split; [|done].
    apply borderProp_prefix in Hbp as [r ->].
    by rewrite lookup_insert_ne. }
  split; [by apply Hgen|]. split; [by apply Hgen|]. split; [done|].
  intros sup b bw style padding log e Hsup Hf. unfold fails in Hf.
  apply andb_true_iff in Hf as [[Ha Hs]%andb_true_iff Hc].
  apply negb_true_iff in Hs, Hc. by apply step_discard.
Qed.

Lemma borderedNoPadding_resolution th :
  ¬ border_width th == 0 →
  warnings (Box th borderedNoPadding)
  = [rhythmWarning "paddingBottom" "vertical";
     rhythmWarning "paddingLeft" "horizontal";
     rhythmWarning "paddingRight" "horizontal";
     rhythmWarning "paddingTop" "vertical"]
  ∧ computed (Box th borderedNoPadding) "outline"
    = Some (VString "solid 1px red")
  ∧ computed (Box th borderedNoPadding) "paddingTop"
    = Some (VNumber (num_sub (num_of_Z 0) (Finite (border_width th)))).
Proof.
  intros Hw.
  assert (Hst : propsToStyle th borderedNoPadding
                = {[ "paddingTop" := VNumber (num_of_Z 0) ]})
    by (vm_compute; reflexivity).
  rewrite (Box_border th borderedNoPadding "border") by reflexivity.
  rewrite Hst.
  change (get borderedNoPadding "suppressRhythmWarning") with VUndefined.
  change (get borderedNoPadding "border") with (VBool true).
  change (borderWidth th borderedNoPadding)
    with (VNumber (Finite (border_width th))).
  unfold adjustPaddingForRhythm. cbn [truthy].
  rewrite (num_truthy_nonzero _ Hw). cbn [negb fold_left edges].
  rewrite !step_warn by reflexivity.
  cbn [fst snd warnings computed].
  split; [reflexivity|]. split; apply lookup_union_Some_l.
  - reflexivity.
  - rewrite lookup_insert_ne by done. by rewrite lookup_insert_eq.
Qed.

(** C2 (amended). With a non-zero theme border width, the request
    [{border: true, paddingTop: false}] warns once per edge, the computed
    style carries the outline flag, and [paddingTop], mapped to [0], comes
    out as [0 - borderWidth], which is [-1] for the default width [1]. *)
Theorem uncompensated_padding_is_reduced th :
  ¬ border_width th == 0 →
  warnings (Box th borderedNoPadding)
  = [rhythmWarning "paddingBottom" "vertical";
     rhythmWarning "paddingLeft" "horizontal";
     rhythmWarning "paddingRight" "horizontal";
     rhythmWarning "paddingTop" "vertical"]
  ∧ computed (Box th borderedNoPadding) "outline"
    = Some (VString "solid 1px red")
  ∧ propsToStyle th borderedNoPadding !! "paddingTop"
    = Some (VNumber (num_of_Z 0))
  ∧ computed (Box th borderedNoPadding) "paddingTop"
    = Some (VNumber (num_sub (num_of_Z 0) (Finite (border_width th))))
  ∧ (border_width th == 1 →
     computed (Box th borderedNoPadding) "paddingTop"
     = Some (VNumber (num_of_Z (-1)))).
Proof.
  intros Hw.
  destruct (borderedNoPadding_resolution th Hw) as (Hlog & Hout & Htop).
  split; [done|]. split; [done|]. split; [by vm_compute|].
  split; [done|].
  intros H1. rewrite Htop. do 2 f_equal. apply num_sub_Z. by rewrite H1.
Qed.

Lemma NoDup_edges : NoDup edges.
Proof. solve_NoDup. Qed.

(** A compensable edge gets its padding minus the border width, and the
    entry reaches the final overlay when no later edge discards it. *)
Lemma adjustPadding_compensated sup b bw style before e after p :
  edges = before ++ e :: after →
  truthy bw = true →
  adjust b e = true →
  style !! ("padding" +:+ e) = Some (VNumber p) →
  num_ge0 (num_sub p (toNumber bw)) = true →
  truthy sup = false
  ∨ (num_truthy p = true ∧ ∀ e', e' ∈ after → fails b bw style e' = false) →
  (adjustPaddingForRhythm sup b bw style).1 !! ("padding" +:+ e)
  = Some (VNumber (num_sub p (toNumber bw))).
Proof.
  intros Hedges Hbw Ha Hst Hge Hok.
  assert (Hpv : style_get style ("padding" +:+ e) = VNumber p)
    by (unfold style_get; by rewrite Hst).
  assert (Hred : reduced bw (VNumber p) = num_sub p (toNumber bw)) by done.
  unfold adjustPaddingForRhythm. rewrite Hbw. cbn [negb].
  rewrite Hedges, fold_left_app. cbn [fold_left].
  apply fold_keeps.
  - destruct (fold_left _ before _) as [padding log].
    destruct (num_truthy p) eqn:Hp.
    + rewrite step_compensate; rewrite ?Hpv; try done.
      * cbn [fst]. by rewrite lookup_insert_eq, Hred.
      * unfold canCompensate, js_and. cbn [truthy]. by rewrite Hp, Hred.
    + destruct Hok as [Hsup|[? _]]; [|done].
      rewrite step_warn; rewrite ?Hpv; try done.
      * cbn [fst]. by rewrite lookup_insert_eq, Hred.
      * unfold canCompensate, js_and. cbn [truthy]. by rewrite Hp.
  - intros e' Hin. split.
    + intros Heq%padding_inj. subst e'.
      pose proof NoDup_edges as Hnd. rewrite Hedges in Hnd.
      apply NoDup_app in Hnd as (_ & _ & Hnd).
      by apply NoDup_cons in Hnd as [? _].
    + destruct Hok as [?|[_ Hafter]]; [by left|right; by apply Hafter].
Qed.

Lemma borderedPadded_resolution th :
  typography_lineHeight th == 20 → border_width th == 1 →
  computed (Box th borderedPadded) "paddingTop"
  = Some (VNumber (num_of_Z 19))
  ∧ computed (Box th borderedPadded) "border"
    = Some (VString ("solid 1px " +:+ toString (color th (VString "gray")))).
Proof.
  intros Hh Hw.
  rewrite (Box_border th borderedPadded "border") by reflexivity.
  cbn [computed]. split.
  - apply lookup_union_Some_l. rewrite lookup_insert_ne by done.
    change (get borderedPadded "border") with (VBool true).
    change (borderWidth th borderedPadded)
      with (VNumber (Finite (border_width th))).
    rewrite (adjustPadding_compensated _ _ _ _ ["Bottom"; "Left"; "Right"]
               "Top" [] (Finite 20)).
    + cbn [toNumber]. do 2 f_equal. apply num_sub_Z. by rewrite Hw.
    + done.
    + cbn [truthy]. apply num_truthy_nonzero. by rewrite Hw.
    + done.
    + transitivity
        (({[ "paddingTop" := rhythmOrString th (VNumber (num_of_Z 1)) ]}
          : gmap string value) !! "paddingTop"); [by vm_compute|].
      rewrite lookup_singleton_eq. f_equal.
      apply (rhythmOrString_number th 1 20). by rewrite Hh.
    + cbn [toNumber]. rewrite (num_sub_Z _ _ 19); [done|by rewrite Hw].
    + right. split; [done|]. by intros e' ?%elem_of_nil.
  - apply lookup_union_Some_l. rewrite lookup_insert_eq. do 2 f_equal.
    change (borderWidth th borderedPadded)
      with (VNumber (Finite (border_width th))).
    unfold borderString. cbn [toString].
    by rewrite (numberToString_Z _ 1 Hw).
Qed.

(** C4 (amended). With line height 20 and border width 1 the request
    [{border: true, paddingTop: 1}] resolves to [paddingTop = 19] and a
    [border] of "solid 1px" followed by the theme's gray.  More generally,
    when the padding of an adjusted edge is a number [p] with
    [p - borderWidth >= 0], the overlay holds [p - borderWidth] for that
    edge, provided [suppressRhythmWarning] is not set or, when it is set,
    [p] is non-zero and no later edge fails (a suppressed failure discards
    the overlay); and the overlay always sets the border property to the
    border string. *)
Theorem border_compensation th :
  (typography_lineHeight th == 20 → border_width th == 1 →
     computed (Box th borderedPadded) "paddingTop"
     = Some (VNumber (num_of_Z 19))
     ∧ computed (Box th borderedPadded) "border"
       = Some (VString ("solid 1px " +:+ toString (color th (VString "gray")))))
  ∧ (∀ props style bp before e after p,
       truthy (get props "border") = true →
       borderProp (get props "border") = Ok bp →
       edges = before ++ e :: after →
       truthy (borderWidth th props) = true →
       adjust (get props "border") e = true →
       style !! ("padding" +:+ e) = Some (VNumber p) →
       num_ge0 (num_sub p (toNumber (borderWidth th props))) = true →
       truthy (get props "suppressRhythmWarning") = false
       ∨ (num_truthy p = true
          ∧ ∀ e', e' ∈ after →
              fails (get props "border") (borderWidth th props) style e'
              = false) →
       ∃ overlay log,
         borderWithRhythm th props style = Ok (overlay, log)
         ∧ overlay !! ("padding" +:+ e)
           = Some (VNumber (num_sub p (toNumber (borderWidth th props)))))
  ∧ (∀ props style bp,
       truthy (get props "border") = true →
       borderProp (get props "border") = Ok bp →
       ∃ overlay log,
         borderWithRhythm th props style = Ok (overlay, log)
         ∧ overlay !! bp
           = Some (VString (borderString (borderWidth th props)
                              (borderColor th props)))).
Proof.
  split; [apply borderedPadded_resolution|]. split.
  - intros props style bp before e after p Hb Hbp Hedges Hbw Ha Hst Hge Hok.
    rewrite (borderWithRhythm_border th props style bp) by done.
    eexists _, _. split; [done|].
    apply borderProp_prefix in Hbp as [r ->].
    rewrite lookup_insert_ne by done.
    by apply (adjustPadding_compensated _ _ _ _ before e after).
  - intros props style bp Hb Hbp.
    rewrite (borderWithRhythm_border th props style bp) by done.
    eexists _, _. split; [done|]. by rewrite lookup_insert_eq.
Qed.

(** *** Unknown colour names *)

Lemma typedBorder_borderProp b :
  typedBorder b = true → truthy b = true → ∃ bp, borderProp b = Ok bp.
Proof.
  unfold typedBorder, borderProp. intros H Hb. rewrite Hb in H.
  cbn [negb orb] in H.
  destruct (strict_eq b (VBool true)); [by eexists|].
  destruct b; try done. by eexists.
Qed.

Lemma propsToStyle_backgroundColor th props v :
  NoDup (keys props) → ("backgroundColor", v) ∈ props →
  propsToStyle th props !! "backgroundColor" = Some (color th v).
Proof.
  intros Hnd Hin.
  apply list_elem_of_split in Hin as (before & after & ->).
  eapply propsToStyle_last_writer; [done|reflexivity| |].
  - by rewrite lookup_singleton_eq.
  - intros p' v' ps' Hin' Hps'.
    destruct (ps' !! "backgroundColor") as [x|] eqn:E; [|done].
    destruct (propToStyle_entry _ _ _ _ _ _ Hps' E)
      as [(H & <- & _)|[(_ & H & _)|[(-> & _)|(_ & H & _)]]]; try done.
    unfold keys in Hnd. rewrite fmap_app, fmap_cons in Hnd.
    apply NoDup_app in Hnd as (_ & _ & Hnd).
    apply NoDup_cons in Hnd as [Hnd _]. destruct Hnd.
    by apply (list_elem_of_fmap_2 fst _ ("backgroundColor", v')).
Qed.

(** C9 (amended). A request whose [border] is well typed (falsy, [true]
    or a string) always resolves, whatever its colours name.  A
    [backgroundColor] or [borderColor] naming neither a key of
    [theme.colors] nor a member inherited from Object.prototype reads as
    undefined, which is passed on: the mapper emits
    [backgroundColor: undefined], the computed [backgroundColor] is
    undefined and the border string ends in the text "undefined".  A name
    such as toString or constructor reads as the inherited member
    instead. *)
Theorem unknown_color_lookup th props :
  (∀ v, colors th !! toString v = None →
        elem (toString v) objectPrototype = false →
        propToStyle "backgroundColor" v th
        = Some {[ "backgroundColor" := VUndefined ]})
  ∧ (∀ v, colors th !! toString v = None →
          elem (toString v) objectPrototype = true →
          propToStyle "backgroundColor" v th
          = Some {[ "backgroundColor" := VInherited (toString v) ]})
  ∧ (typedBorder (get props "border") = true →
     ∃ style log, Box th props = Ok (style, log))
  ∧ (∀ v, typedBorder (get props "border") = true →
          NoDup (keys props) → ("backgroundColor", v) ∈ props →
          colors th !! toString v = None →
          elem (toString v) objectPrototype = false →
          computed (Box th props) "backgroundColor" = Some VUndefined)
  ∧ (∀ bp, truthy (get props "border") = true →
           borderProp (get props "border") = Ok bp →
           truthy (get props "borderColor") = true →
           colors th !! toString (get props "borderColor") = None →
           elem (toString (get props "borderColor")) objectPrototype = false →
           computed (Box th props) bp
           = Some (VString ("solid " +:+ toString (borderWidth th props)
                            +:+ "px undefined"))).
Proof.
  split; [|split; [|split; [|split]]].
  - intros v Hv Hi.
    change (propToStyle "backgroundColor" v th)
      with (Some ({[ "backgroundColor" := color th v ]} : gmap string value)).
    unfold color. by rewrite Hv, Hi.
  - intros v Hv Hi.
    change (propToStyle "backgroundColor" v th)
      with (Some ({[ "backgroundColor" := color th v ]} : gmap string value)).
    unfold color. by rewrite Hv, Hi.
  - intros Ht. destruct (truthy (get props "border")) eqn:Hb.
    + destruct (typedBorder_borderProp _ Ht Hb) as [bp Hbp].
      rewrite (Box_border th props bp) by done. by eexists _, _.
    + rewrite Box_no_border by done. by eexists _, _.
  - intros v Ht Hnd Hin Hv Hi.
    assert (Hst : propsToStyle th props !! "backgroundColor" = Some VUndefined).
    { rewrite (propsToStyle_backgroundColor th props v) by done.
      unfold color. by rewrite Hv, Hi. }
    destruct (truthy (get props "border")) eqn:Hb;
      [|by rewrite Box_no_border].
    destruct (typedBorder_borderProp _ Ht Hb) as [bp Hbp].
    rewrite (Box_border th props bp) by done. cbn [computed].
    rewrite lookup_union_r; [done|].
    apply borderProp_prefix in Hbp as [r ->].
    rewrite lookup_insert_ne by done. by apply adjustPadding_keys.
  - intros bp Hb Hbp Hc Hnone Hi.
    rewrite (Box_border th props bp) by done. cbn [computed].
    apply lookup_union_Some_l. rewrite lookup_insert_eq.
    unfold borderString, borderColor, color. by rewrite Hc, Hnone, Hi.
Qed.

(** *** Vertical rhythm *)






(** C5. The unit resolver is total: a number [n] resolves to the product
    of the line height and [n] (30 for 1.5 on a line height of 20), a
    non-empty string to itself, and [false], [undefined], [0] and the
    empty string to [0]. *)
Theorem rhythmOrString_total (th : theme) :
  (∀ q, ∃ r, rhythmOrString th (VNumber (Finite q)) = VNumber (Finite r)
             ∧ r == typography_lineHeight th * q ∧ Qred r = r)
  ∧ rhythmOrString th (VNumber NaN) = VNumber NaN
  ∧ (typography_lineHeight th == 20 →
     rhythmOrString th (VNumber (Finite (3 # 2))) = VNumber (num_of_Z 30)
     ∧ rhythmOrString th (VNumber (num_of_Z (-2))) = VNumber (num_of_Z (-40)))
  ∧ (∀ c s, rhythmOrString th (VString (String c s)) = VString (String c s))
  ∧ rhythmOrString th (VBool false) = VNumber (num_of_Z 0)
  ∧ rhythmOrString th VUndefined = VNumber (num_of_Z 0)
  ∧ rhythmOrString th (VNumber (num_of_Z 0)) = VNumber (num_of_Z 0)
  ∧ rhythmOrString th (VString "") = VNumber (num_of_Z 0).
Proof.
  split; [|split; [|split]].
  - intros q. exists (Qred (typography_lineHeight th * q)).
    split; [reflexivity|]. split; [apply Qred_correct|apply Qred_involutive].
  - reflexivity.
  - intros Hh. split; apply rhythmOrString_number; rewrite Hh; reflexivity.
  - repeat split; try reflexivity.
    cbn. by rewrite Qred_zero_r.
Qed.

(** ** Further properties of the mapper *)

Lemma get_not_key (props : list (string * value)) k :
  k ∉ keys props → get props k = VUndefined.
Proof.
  induction props as [|[k' v'] props IH]; [done|]. cbn.
  intros [Hne Hin]%not_elem_of_cons.
  destruct (String.eqb_spec k' k) as [->|_]; [done|by apply IH].
Qed.

Lemma propsToStyle_pairs th props :
  NoDup (keys props) →
  propsToStyle th props = fold_left (propsToStyle_pair th) props ∅.
Proof.
  intros Hnd. unfold propsToStyle.
  assert (H : ∀ l style,
            (∀ k v, (k, v) ∈ l → get props k = v) →
            fold_left (propsToStyle_step th props) (keys l) style
            = fold_left (propsToStyle_pair th) l style).
  { induction l as [|[k v] l IH]; intros style Hl; [done|].
    cbn [keys fmap list_fmap fold_left fst]. rewrite <- IH.
    - f_equal. unfold propsToStyle_step, propsToStyle_pair. cbn [fst snd].
      rewrite (Hl k v); [done|by left].
    - intros k' v' Hin. apply Hl. by right. }
  apply H. intros k v. by apply get_elem_of.
Qed.

Lemma propToStyle_recognised prop v th :
  elem prop recognisedProps = false → propToStyle prop v th = None.
Proof.
  unfold recognisedProps, spacingProps, propToStyle. rewrite !elem_app.
  intros H. cbn [elem existsb] in H.
  repeat match goal with
         | H : _ || _ = false |- _ => apply orb_false_iff in H as [? ?]
         end.
  by repeat match goal with
            | H : ?b = false |- context [if ?b then _ else _] => rewrite H
            end.
Qed.

Lemma NoDup_keys_without before (kv : string * value) after :
  NoDup (keys (before ++ kv :: after)) → NoDup (keys (before ++ after)).
Proof.
  unfold keys. rewrite !fmap_app, fmap_cons.
  intros (Hb & Hd & Ha)%NoDup_app. apply NoDup_cons in Ha as [_ Ha].
  apply NoDup_app. split; [done|]. split; [|done].
  intros x Hx Hin. apply (Hd x Hx). by right.
Qed.

(** X1. A prop outside the mapper's table (className, id, style, theme,
    border, ...) leaves the mapped style as it is without that prop,
    wherever it stands in the request. *)
Theorem propsToStyle_ignores_unlisted th before prop v after :
  NoDup (keys (before ++ (prop, v) :: after)) →
  elem prop recognisedProps = false →
  propsToStyle th (before ++ (prop, v) :: after)
  = propsToStyle th (before ++ after).
Proof.
  intros Hnd Hprop.
  rewrite !propsToStyle_pairs by eauto using NoDup_keys_without.
  rewrite !fold_left_app. cbn [fold_left]. f_equal.
  unfold propsToStyle_pair. cbn [fst snd].
  rewrite (propToStyle_recognised _ _ _ Hprop). by destruct (String.eqb _ _).
Qed.

(** X2. A shorthand ([margin], [padding], [marginHorizontal], ...) maps
    exactly as the direct props it stands for, given the same value, in
    the same place of the request. *)
Theorem shorthand_is_its_expansion th before prop v after :
  elem prop (shorthandProps ++ ["margin"; "padding"]) = true →
  NoDup (keys (before ++ (prop, v) :: after)) →
  NoDup (keys (before ++ ((λ k, (k, v)) <$> expansion prop) ++ after)) →
  propsToStyle th (before ++ (prop, v) :: after)
  = propsToStyle th (before ++ ((λ k, (k, v)) <$> expansion prop) ++ after).
Proof.
  intros Hprop Hnd Hnd'. rewrite !propsToStyle_pairs by done.
  rewrite !fold_left_app. cbn [fold_left]. f_equal.
  apply elem_true in Hprop. cbn in Hprop.
  generalize (fold_left (propsToStyle_pair th) before ∅). intros s0.
  repeat (apply elem_of_cons in Hprop as [->|Hprop];
    [cbv beta iota zeta delta
       [propsToStyle_pair propToStyle fold_left fmap list_fmap expansion
        directionMapping elem existsb plainProps rhythmProps shorthandProps
        String.eqb Ascii.eqb Bool.eqb orb fst snd];
     by rewrite !insert_union_singleton_l, <- !(assoc_L (∪))|]).
  by apply elem_of_nil in Hprop.
Qed.

Lemma propToStyle_targets prop v th ps k :
  propToStyle prop v th = Some ps → is_Some (ps !! k) →
  elem k (targets prop) = true.
Proof.
  unfold propToStyle, targets.
  destruct (elem prop plainProps) eqn:E1.
  { intros [= <-] [x [-> _]%lookup_singleton_Some]. cbn.
    by rewrite String.eqb_refl. }
  destruct (elem prop rhythmProps) eqn:E2.
  { intros [= <-] [x [-> _]%lookup_singleton_Some]. cbn.
    by rewrite String.eqb_refl. }
  cbn [orb].
  destruct (elem prop shorthandProps) eqn:E3.
  { apply elem_true in E3. unfold shorthandProps in E3.
    repeat (apply elem_of_cons in E3 as [->|E3];
      [intros [= <-] [x Hk];
       repeat (apply lookup_insert_Some in Hk as [[<- _]|[_ Hk]]; [done|]);
       by apply lookup_singleton_Some in Hk as [<- _]|]).
    by apply elem_of_nil in E3. }
  cbn [orb].
  destruct (String.eqb_spec prop "margin") as [->|_].
  { intros [= <-] [x Hk].
    repeat (apply lookup_insert_Some in Hk as [[<- _]|[_ Hk]]; [done|]).
    by apply lookup_singleton_Some in Hk as [<- _]. }
  destruct (String.eqb_spec prop "padding") as [->|_].
  { intros [= <-] [x Hk].
    repeat (apply lookup_insert_Some in Hk as [[<- _]|[_ Hk]]; [done|]).
    by apply lookup_singleton_Some in Hk as [<- _]. }
  destruct (String.eqb_spec prop "backgroundColor") as [->|_].
  { by intros [= <-] [x [<- _]%lookup_singleton_Some]. }
  destruct (String.eqb_spec prop "borderRadius") as [->|_]; [|done].
  by intros [= <-] [x [<- _]%lookup_singleton_Some].
Qed.

Lemma conflictFree_disjointTargets ks :
  conflictFree ks = true → disjointTargets ks.
Proof.
  induction ks as [|a rest IH]; intros Hcf p p' k Hp Hp' Hne Hk.
  { by apply elem_of_nil in Hp. }
  cbn in Hcf. apply andb_true_iff in Hcf as [Hall Hcf].
  rewrite forallb_forall in Hall.
  apply elem_of_cons in Hp as [->|Hp]; apply elem_of_cons in Hp' as [->|Hp'].
  - done.
  - apply list_elem_of_In, Hall in Hp'. rewrite forallb_forall in Hp'.
    apply elem_true, list_elem_of_In, Hp' in Hk. by apply negb_true_iff in Hk.
  - apply list_elem_of_In, Hall in Hp. rewrite forallb_forall in Hp.
    destruct (elem k (targets a)) eqn:Ea; [|done].
    apply elem_true, list_elem_of_In, Hp in Ea. apply negb_true_iff in Ea.
    congruence.
  - by apply (IH Hcf p p' k).
Qed.

Lemma propsToStyle_sole_writer th props p v ps k x :
  NoDup (keys props) → disjointTargets (keys props) →
  (p, v) ∈ props → propToStyle p v th = Some ps → ps !! k = Some x →
  propsToStyle th props !! k = Some x.
Proof.
  intros Hnd Hdis Hin Hps Hk.
  assert (Hkt : elem k (targets p) = true)
    by (eapply propToStyle_targets; [done|by eexists]).
  apply list_elem_of_split in Hin as (before & after & ->).
  eapply propsToStyle_last_writer; [done|done|done|].
  intros p' v' ps' Hin' Hps'.
  destruct (ps' !! k) as [x'|] eqn:E; [|done].
  assert (Hkt' : elem k (targets p') = true)
    by (eapply propToStyle_targets; [done|by eexists]).
  assert (Hp' : p' ∈ keys (before ++ (p, v) :: after)).
  { apply (list_elem_of_fmap_2 fst _ (p', v')), elem_of_app. right. by right. }
  assert (Hp : p ∈ keys (before ++ (p, v) :: after)).
  { apply (list_elem_of_fmap_2 fst _ (p, v)), elem_of_app. right. by left. }
  assert (Hne : p ≠ p').
  { intros <-. unfold keys in Hnd. rewrite fmap_app, fmap_cons in Hnd.
    apply NoDup_app in Hnd as (_ & _ & Hnd).
    apply NoDup_cons in Hnd as [Hnd _]. destruct Hnd.
    by apply (list_elem_of_fmap_2 fst _ (p, v')). }
  rewrite (Hdis p p' k Hp Hp' Hne Hkt) in Hkt'. done.
Qed.

Lemma propsToStyle_permutation th props1 props2 :
  props1 ≡ₚ props2 →
  NoDup (keys props1) → disjointTargets (keys props1) →
  propsToStyle th props1 = propsToStyle th props2.
Proof.
  intros Hperm Hnd Hdis.
  assert (Hkeys : keys props1 ≡ₚ keys props2) by by apply fmap_Permutation.
  assert (Hnd2 : NoDup (keys props2)) by by rewrite <- Hkeys.
  assert (Hdis2 : disjointTargets (keys props2)).
  { intros q q' k Hq Hq'. apply Hdis; by rewrite Hkeys. }
  assert (Hle : ∀ l1 l2 k x,
            l1 ≡ₚ l2 → NoDup (keys l2) → disjointTargets (keys l2) →
            propsToStyle th l1 !! k = Some x →
            propsToStyle th l2 !! k = Some x).
  { intros l1 l2 k x Hp Hn Hd (q & w & ps & Hin & Hps & Hk)%propsToStyle_entry.
    apply (propsToStyle_sole_writer th l2 q w ps); try done.
    by rewrite <- Hp. }
  apply map_eq. intros k.
  destruct (propsToStyle th props1 !! k) as [x|] eqn:E1.
  - symmetry. by apply (Hle props1 props2).
  - destruct (propsToStyle th props2 !! k) as [x|] eqn:E2; [|done].
    apply (Hle props2 props1) in E2; [congruence|done..].
Qed.

(** X3. When no two props of a request write a common style key, the
    mapped style does not depend on the order in which the request
    enumerates its props. *)
Theorem propsToStyle_order_independent th props1 props2 :
  props1 ≡ₚ props2 →
  NoDup (keys props1) → conflictFree (keys props1) = true →
  propsToStyle th props1 = propsToStyle th props2.
Proof.
  intros Hperm Hnd Hcf. apply propsToStyle_permutation; [done|done|].
  by apply conflictFree_disjointTargets.
Qed.

Lemma plain_not_rhythm p :
  elem p plainProps = true → elem p rhythmProps = false.
Proof.
  intros H%elem_true. unfold plainProps in H.
  repeat (apply elem_of_cons in H as [->|H]; [done|]).
  by apply elem_of_nil in H.
Qed.

Lemma plain_not_overlay p :
  elem p plainProps = true →
  p ≠ "outline" ∧ (∀ e, p ≠ "padding" +:+ e) ∧ (∀ r, p ≠ "border" +:+ r).
Proof.
  intros H%elem_true. unfold plainProps in H.
  repeat (apply elem_of_cons in H as [->|H]; [done|]).
  by apply elem_of_nil in H.
Qed.

Lemma propsToStyle_plain th props p v :
  NoDup (keys props) → (p, v) ∈ props → elem p plainProps = true →
  propsToStyle th props !! p = Some v.
Proof.
  intros Hnd Hin Hp.
  apply list_elem_of_split in Hin as (before & after & ->).
  eapply propsToStyle_last_writer; [done| | |].
  - unfold propToStyle. by rewrite Hp.
  - by rewrite lookup_singleton_eq.
  - intros p' v' ps' Hin' Hps'.
    destruct (ps' !! p) as [x|] eqn:E; [|done].
    destruct (propToStyle_entry _ _ _ _ _ _ Hps' E)
      as [(_ & -> & _)|[(_ & H & _)|[(_ & -> & _)|(_ & -> & _)]]]; try done.
    + unfold keys in Hnd. rewrite fmap_app, fmap_cons in Hnd.
      apply NoDup_app in Hnd as (_ & _ & Hnd).
      apply NoDup_cons in Hnd as [Hnd _]. destruct Hnd.
      by apply (list_elem_of_fmap_2 fst _ (p', v')).
    + by rewrite plain_not_rhythm in H.
Qed.

(** X4. A pass-through layout prop ([display], [flex], [alignItems], ...)
    reaches the computed style with its value unchanged, whatever else
    the request holds and whether or not a border is drawn. *)
Theorem plain_prop_passes_through th props p v :
  typedBorder (get props "border") = true →
  NoDup (keys props) → (p, v) ∈ props → elem p plainProps = true →
  computed (Box th props) p = Some v.
Proof.
  intros Ht Hnd Hin Hp.
  pose proof (propsToStyle_plain th props p v Hnd Hin Hp) as Hst.
  destruct (truthy (get props "border")) eqn:Hb;
    [|by rewrite Box_no_border].
  destruct (typedBorder_borderProp _ Ht Hb) as [bp Hbp].
  rewrite (Box_border th props bp) by done. cbn [computed].
  rewrite lookup_union_r; [done|].
  destruct (plain_not_overlay p Hp) as (Ho & Hpad & Hbor).
  apply borderProp_prefix in Hbp as [r ->].
  rewrite lookup_insert_ne by (intros H; by destruct (Hbor r)).
  by apply adjustPadding_keys.
Qed.

(** X5. [borderRadius] is written by no other prop and falls back on the
    theme's radius for every falsy value: a request cannot ask for the
    radius [0]. *)
Theorem borderRadius_or_theme th props v :
  NoDup (keys props) → ("borderRadius", v) ∈ props →
  propsToStyle th props !! "borderRadius"
  = Some (if truthy v then v else VNumber (Finite (border_radius th))).
Proof.
  intros Hnd Hin.
  apply list_elem_of_split in Hin as (before & after & ->).
  eapply propsToStyle_last_writer; [done|reflexivity| |].
  - by rewrite lookup_singleton_eq.
  - intros p' v' ps' Hin' Hps'.
    destruct (ps' !! "borderRadius") as [x|] eqn:E; [|done].
    destruct (propToStyle_entry _ _ _ _ _ _ Hps' E)
      as [(H & <- & _)|[(_ & H & _)|[(_ & H & _)|(-> & _)]]]; try done.
    unfold keys in Hnd. rewrite fmap_app, fmap_cons in Hnd.
    apply NoDup_app in Hnd as (_ & _ & Hnd).
    apply NoDup_cons in Hnd as [Hnd _]. destruct Hnd.
    by apply (list_elem_of_fmap_2 fst _ ("borderRadius", v')).
Qed.

(** ** Further properties of the border overlay *)

Lemma NoDup_edges_split before e after :
  edges = before ++ e :: after →
  (∀ e', e' ∈ after → e' ≠ e) ∧ (∀ e1 e2, e1 ∈ before → e2 ∈ after → e1 ≠ e2).
Proof.
  intros Hedges. pose proof NoDup_edges as Hnd. rewrite Hedges in Hnd.
  apply NoDup_app in Hnd as (_ & Hd & Hnd).
  apply NoDup_cons in Hnd as [Hnd _]. split.
  - by intros e' Hin ->.
  - intros e1 e2 H1 H2 ->. apply (Hd e2 H1). by right.
Qed.

(** Without suppression every adjusted edge whose padding is no string
    gets that padding minus the border width. *)
Lemma adjustPadding_subtracts sup b bw style e :
  truthy sup = false → truthy bw = true →
  e ∈ edges → adjust b e = true →
  is_string (style_get style ("padding" +:+ e)) = false →
  (adjustPaddingForRhythm sup b bw style).1 !! ("padding" +:+ e)
  = Some (VNumber (reduced bw (style_get style ("padding" +:+ e)))).
Proof.
  intros Hsup Hbw He Ha Hs.
  pose proof He as (before & after & Hedges)%list_elem_of_split.
  unfold adjustPaddingForRhythm. rewrite Hbw. cbn [negb].
  rewrite Hedges, fold_left_app. cbn [fold_left].
  apply fold_keeps.
  - destruct (fold_left _ before _) as [padding log].
    destruct (truthy (canCompensate bw (style_get style ("padding" +:+ e))))
      eqn:Hc.
    + rewrite step_compensate by done. cbn [fst]. by rewrite lookup_insert_eq.
    + rewrite step_warn by done. cbn [fst]. by rewrite lookup_insert_eq.
  - intros e' Hin. split; [|by left].
    intros Heq%padding_inj. subst e'.
    by destruct (proj1 (NoDup_edges_split _ _ _ Hedges) e Hin).
Qed.

Lemma step_log sup b bw style padding log e :
  truthy sup = false →
  (adjustPadding_step sup b bw style (padding, log) e).2
  = log ++ (if fails b bw style e
            then [rhythmWarning ("padding" +:+ e) (direction e)] else []).
Proof.
  intros Hsup. unfold fails.
  step_cases sup b bw style e; cbn [snd negb andb];
    by rewrite ?app_nil_r.
Qed.

Lemma fold_log sup b bw style l acc :
  truthy sup = false →
  (fold_left (adjustPadding_step sup b bw style) l acc).2
  = acc.2 ++ ((λ e, rhythmWarning ("padding" +:+ e) (direction e))
              <$> List.filter (fails b bw style) l).
Proof.
  intros Hsup. revert acc.
  induction l as [|e l IH]; intros [padding log];
    [by rewrite app_nil_r|].
  cbn [fold_left List.filter].
  rewrite IH, (step_log sup b bw style padding log e Hsup).
  cbn [snd]. destruct (fails b bw style e); cbn [fmap list_fmap].
  - by rewrite <- app_assoc.
  - by rewrite app_nil_r.
Qed.

(** The outline flag and the warnings come together. *)
Lemma fold_outline_log sup b bw style l acc :
  (acc.2 = [] ∧ acc.1 !! "outline" = None)
  ∨ (acc.2 ≠ [] ∧ acc.1 !! "outline" = Some (VString "solid 1px red")
     ∧ truthy sup = false) →
  ((fold_left (adjustPadding_step sup b bw style) l acc).2 = []
   ∧ (fold_left (adjustPadding_step sup b bw style) l acc).1 !! "outline"
     = None)
  ∨ ((fold_left (adjustPadding_step sup b bw style) l acc).2 ≠ []
     ∧ (fold_left (adjustPadding_step sup b bw style) l acc).1 !! "outline"
       = Some (VString "solid 1px red")
     ∧ truthy sup = false).
Proof.
  revert acc. induction l as [|e l IH]; intros [padding log] Hacc; [done|].
  cbn [fold_left]. apply IH. cbn [fst snd] in Hacc.
  step_cases sup b bw style e; cbn [fst snd];
    rewrite ?lookup_insert_ne by apply padding_ne_outline.
  - done.
  - done.
  - destruct Hacc as [[-> _]|(_ & _ & ?)]; [by left|congruence].
  - right. split; [by destruct log|]. split; [|done].
    destruct Hacc as [[_ Ho]|(_ & Ho & _)].
    + by rewrite lookup_union_r.
    + by apply lookup_union_Some_l.
  - done.
Qed.

Lemma fold_absent sup b bw style l acc k :
  acc.1 !! k = None → k ≠ "outline" →
  (∀ e, e ∈ l → k ≠ "padding" +:+ e) →
  (fold_left (adjustPadding_step sup b bw style) l acc).1 !! k = None.
Proof.
  intros Hk Ho. revert acc Hk.
  induction l as [|e l IH]; intros [padding log] Hk Hl; [done|].
  cbn [fold_left]. apply IH; [|intros e' Hin; apply Hl; by right].
  assert (Hne : "padding" +:+ e ≠ k).
  { intros <-. apply (Hl e); [by left|done]. }
  cbn [fst] in Hk.
  step_cases sup b bw style e; cbn [fst];
    rewrite ?lookup_insert_ne by done; try done.
  apply lookup_union_None. split; [done|]. unfold outline.
  by rewrite lookup_singleton_ne.
Qed.

Lemma overlay_lookup th props bp k :
  borderProp (get props "border") = Ok bp → k ≠ bp →
  (<[ bp := VString (borderString (borderWidth th props)
                       (borderColor th props)) ]>
     (adjustPaddingForRhythm (get props "suppressRhythmWarning")
        (get props "border") (borderWidth th props)
        (propsToStyle th props)).1
   ∪ propsToStyle th props) !! k
  = ((adjustPaddingForRhythm (get props "suppressRhythmWarning")
        (get props "border") (borderWidth th props)
        (propsToStyle th props)).1
     ∪ propsToStyle th props) !! k.
Proof.
  intros Hbp Hne. rewrite !lookup_union. by rewrite lookup_insert_ne.
Qed.

(** X6. Without a truthy [border] (absent, [false], [''], [0], [null])
    the style function returns the mapped style as it is, emits no warning
    and does not throw, whatever [borderWidth], [borderColor] and
    [suppressRhythmWarning] are. *)
Theorem Box_without_border th props :
  truthy (get props "border") = false →
  Box th props = Ok (propsToStyle th props, []).
Proof.
  intros H. unfold Box, borderWithRhythm. rewrite H. cbn.
  by rewrite (idemp (∪)).
Qed.

(** X7. The style function throws, a TypeError, exactly when [border] is
    truthy and neither [true] nor a string. *)
Theorem Box_throws_iff th props :
  Box th props = Throw TypeError ↔ typedBorder (get props "border") = false.
Proof.
  split.
  - intros HBox. destruct (typedBorder (get props "border")) eqn:Ht; [|done].
    destruct (truthy (get props "border")) eqn:Hb.
    + destruct (typedBorder_borderProp _ Ht Hb) as [bp Hbp].
      by rewrite (Box_border th props bp) in HBox.
    + by rewrite Box_no_border in HBox.
  - unfold typedBorder. intros H.
    apply orb_false_iff in H as [[Hb Ht]%orb_false_iff Hs].
    apply negb_false_iff in Hb.
    apply Box_throw; [done|]. unfold borderProp. rewrite Ht.
    by destruct (get props "border") as [| |?|?|?|?]; try done; destruct e.
Qed.

(** X8. With a falsy border width (both [borderWidth] and the theme's
    width are [0]) no padding is touched and nothing is warned: the
    computed style is the mapped style plus the border string. *)
Theorem zero_width_border th props bp :
  truthy (get props "border") = true →
  borderProp (get props "border") = Ok bp →
  truthy (borderWidth th props) = false →
  Box th props
  = Ok (<[ bp := VString (borderString (borderWidth th props)
                            (borderColor th props)) ]>
          (propsToStyle th props), []).
Proof.
  intros Hb Hbp Hbw. rewrite (Box_border th props bp) by done.
  unfold adjustPaddingForRhythm. rewrite Hbw. cbn [negb fst snd].
  by rewrite insert_empty, <- insert_union_singleton_l.
Qed.

(** X9. A padding that the mapper resolved to a string is never altered
    by the border overlay: the computed style holds the same string,
    suppressed or not. *)
Theorem string_padding_kept th props computedStyle log e s :
  Box th props = Ok (computedStyle, log) →
  e ∈ edges →
  propsToStyle th props !! ("padding" +:+ e) = Some (VString s) →
  computedStyle !! ("padding" +:+ e) = Some (VString s).
Proof.
  intros HBox He Hst.
  destruct (truthy (get props "border")) eqn:Hb.
  2: { rewrite Box_no_border in HBox by done. by injection HBox as <- <-. }
  destruct (borderProp (get props "border")) as [bp|err] eqn:Hbp.
  2: { by rewrite (Box_throw th props err) in HBox. }
  rewrite (Box_border th props bp) in HBox by done. injection HBox as <- <-.
  rewrite (overlay_lookup th props bp) by
    (try done; apply borderProp_prefix in Hbp as [r ->]; done).
  set (P := (adjustPaddingForRhythm _ _ _ _).1).
  destruct (P !! ("padding" +:+ e)) as [x|] eqn:E; subst P.
  - apply lookup_union_Some_l. rewrite E.
    apply adjustPadding_entries in E
      as [[? _]|(e' & _ & _ & _ & [[_ ->]|(Hs & _)])]; [done| |].
    + unfold style_get. by rewrite Hst.
    + unfold style_get in Hs. by rewrite Hst in Hs.
  - by rewrite lookup_union_r.
Qed.

(** X10. The border overlay touches nothing but the border property, the
    outline flag and the paddings of the adjusted edges: every other key
    of the computed style is the mapper's (with [border: 'top'], the
    bottom, left and right paddings stay as mapped). *)
Theorem overlay_frame th props computedStyle log k :
  Box th props = Ok (computedStyle, log) →
  k ≠ "outline" →
  borderProp (get props "border") ≠ Ok k →
  (∀ e, e ∈ edges → adjust (get props "border") e = true →
        k ≠ "padding" +:+ e) →
  computedStyle !! k = propsToStyle th props !! k.
Proof.
  intros HBox Ho Hbor Hpad.
  destruct (truthy (get props "border")) eqn:Hb.
  2: { rewrite Box_no_border in HBox by done. by injection HBox as <- <-. }
  destruct (borderProp (get props "border")) as [bp|err] eqn:Hbp.
  2: { by rewrite (Box_throw th props err) in HBox. }
  rewrite (Box_border th props bp) in HBox by done. injection HBox as <- <-.
  rewrite (overlay_lookup th props bp) by (try done; congruence).
  apply lookup_union_r.
  set (P := (adjustPaddingForRhythm _ _ _ _).1).
  destruct (P !! k) as [x|] eqn:E; subst P; [|done].
  apply adjustPadding_entries in E as [[? _]|(e & He & -> & Ha & _)]; [done|].
  by destruct (Hpad e He Ha).
Qed.

(** X11. Without suppression and with a truthy border width, the warnings
    are exactly one per failing edge, in the order Bottom, Left, Right,
    Top, each naming the edge's padding and its direction. *)
Theorem warnings_per_failing_edge th props bp :
  truthy (get props "border") = true →
  borderProp (get props "border") = Ok bp →
  truthy (get props "suppressRhythmWarning") = false →
  truthy (borderWidth th props) = true →
  warnings (Box th props)
  = (λ e, rhythmWarning ("padding" +:+ e) (direction e))
    <$> List.filter (fails (get props "border") (borderWidth th props)
                       (propsToStyle th props)) edges.
Proof.
  intros Hb Hbp Hsup Hbw. rewrite (Box_border th props bp) by done.
  cbn [warnings]. unfold adjustPaddingForRhythm. rewrite Hbw. cbn [negb].
  by rewrite fold_log.
Qed.

(** X12. The computed style carries the outline flag exactly when a
    warning was emitted. *)
Theorem outline_iff_warned th props computedStyle log :
  Box th props = Ok (computedStyle, log) →
  (log = [] ∧ computedStyle !! "outline" = None)
  ∨ (log ≠ [] ∧ computedStyle !! "outline" = Some (VString "solid 1px red")).
Proof.
  intros HBox.
  assert (Hstyle : propsToStyle th props !! "outline" = None)
    by by apply propsToStyle_keys.
  destruct (truthy (get props "border")) eqn:Hb.
  2: { rewrite Box_no_border in HBox by done. injection HBox as <- <-.
       by left. }
  destruct (borderProp (get props "border")) as [bp|err] eqn:Hbp.
  2: { by rewrite (Box_throw th props err) in HBox. }
  rewrite (Box_border th props bp) in HBox by done. injection HBox as <- <-.
  rewrite (overlay_lookup th props bp) by
    (try done; apply borderProp_prefix in Hbp as [r ->]; done).
  rewrite lookup_union, Hstyle, (right_id_L None union).
  unfold adjustPaddingForRhythm.
  destruct (truthy (borderWidth th props)); cbn [negb]; [|by left].
  destruct (fold_outline_log (get props "suppressRhythmWarning")
              (get props "border") (borderWidth th props)
              (propsToStyle th props) edges (∅, []))
    as [H|(H1 & H2 & _)]; [by left|by left|by right].
Qed.

(** X13. Without suppression, an adjusted edge for which the request gives
    no padding ends up with the padding NaN ([undefined - borderWidth])
    and the outline flag. *)
Theorem missing_padding_is_NaN th props bp e :
  truthy (get props "border") = true →
  borderProp (get props "border") = Ok bp →
  truthy (get props "suppressRhythmWarning") = false →
  truthy (borderWidth th props) = true →
  e ∈ edges → adjust (get props "border") e = true →
  propsToStyle th props !! ("padding" +:+ e) = None →
  computed (Box th props) ("padding" +:+ e) = Some (VNumber NaN)
  ∧ computed (Box th props) "outline" = Some (VString "solid 1px red").
Proof.
  intros Hb Hbp Hsup Hbw He Ha Hst.
  assert (Hpv : style_get (propsToStyle th props) ("padding" +:+ e) = VUndefined)
    by (unfold style_get; by rewrite Hst).
  pose proof (adjustPadding_subtracts (get props "suppressRhythmWarning")
                (get props "border") (borderWidth th props)
                (propsToStyle th props) e Hsup Hbw He Ha) as Hsub.
  rewrite Hpv in Hsub. specialize (Hsub eq_refl).
  rewrite (Box_border th props bp) by done. cbn [computed].
  rewrite !(overlay_lookup th props bp) by
    (try done; apply borderProp_prefix in Hbp as [r ->]; done).
  split; apply lookup_union_Some_l; [done|].
  apply adjustPadding_entries in Hsub
    as [[? _]|(e' & _ & _ & _ & [[Hs _]|(_ & _ & [Hc|Ho])])]; try done.
  - by rewrite Hpv in Hs.
  - by rewrite Hpv in Hc.
Qed.

(** X15. With the warning suppressed, a failing edge leaves itself and
    every edge before it (in the order Bottom, Left, Right, Top) with the
    padding the mapper gave: none of them is compensated for the border. *)
Theorem suppressed_failure_keeps_mapped th props bp before e after e' :
  truthy (get props "border") = true →
  borderProp (get props "border") = Ok bp →
  truthy (get props "suppressRhythmWarning") = true →
  edges = before ++ e :: after →
  fails (get props "border") (borderWidth th props) (propsToStyle th props) e
  = true →
  e' ∈ before ++ [e] →
  computed (Box th props) ("padding" +:+ e')
  = propsToStyle th props !! ("padding" +:+ e').
Proof.
  intros Hb Hbp Hsup Hedges Hf He'.
  rewrite (Box_border th props bp) by done. cbn [computed].
  rewrite (overlay_lookup th props bp) by
    (try done; apply borderProp_prefix in Hbp as [r ->]; done).
  apply lookup_union_r. unfold adjustPaddingForRhythm.
  destruct (truthy (borderWidth th props)); cbn [negb]; [|done].
  rewrite Hedges, fold_left_app. cbn [fold_left].
  destruct (fold_left _ before _) as [padding log].
  unfold fails in Hf.
  apply andb_true_iff in Hf as [[Ha Hs]%andb_true_iff Hc].
  apply negb_true_iff in Hs, Hc. rewrite step_discard by done.
  apply fold_absent; [done|done|].
  intros e'' Hin Heq%padding_inj. subst e''.
  destruct (NoDup_edges_split _ _ _ Hedges) as [H1 H2].
  apply elem_of_app in He' as [He'|He'].
  - by destruct (H2 e' e' He' Hin).
  - apply list_elem_of_singleton in He' as ->. by destruct (H1 e Hin).
Qed.

Lemma propsToStyle_vocabulary th props k :
  is_Some (propsToStyle th props !! k) →
  elem k (plainProps ++ rhythmProps
          ++ ["backgroundColor"; "borderRadius"; "outline"]) = true.
Proof.
  intros [x Hk]. rewrite !elem_app.
  destruct (elem k plainProps) eqn:E1; [done|].
  destruct (elem k rhythmProps) eqn:E2; [done|]. cbn.
  destruct (String.eqb_spec k "backgroundColor") as [|Hb]; [done|].
  destruct (String.eqb_spec k "borderRadius") as [|Hr]; [done|].
  by rewrite propsToStyle_keys in Hk.
Qed.

Lemma shorthand_not_style_key k :
  elem k (shorthandProps ++ ["margin"; "padding"; "theme"]) = true →
  elem k (plainProps ++ rhythmProps
          ++ ["backgroundColor"; "borderRadius"; "outline"]) = false
  ∧ ∀ r, k ≠ "border" +:+ r.
Proof.
  intros H%elem_true. cbn in H.
  repeat (apply elem_of_cons in H as [->|H]; [done|]).
  by apply elem_of_nil in H.
Qed.

(** X16. Every key of the computed style is a pass-through prop, a direct
    spacing or size prop, [backgroundColor], [borderRadius], [outline], or
    the border property; the shorthand names ([margin], [padding],
    [marginHorizontal], ...) and [theme] are never keys of it. *)
Theorem computed_style_keys th props computedStyle log k :
  Box th props = Ok (computedStyle, log) →
  (is_Some (computedStyle !! k) →
   elem k (plainProps ++ rhythmProps
           ++ ["backgroundColor"; "borderRadius"; "outline"]) = true
   ∨ borderProp (get props "border") = Ok k)
  ∧ (elem k (shorthandProps ++ ["margin"; "padding"; "theme"]) = true →
     computedStyle !! k = None).
Proof.
  intros HBox.
  assert (Hkeys : is_Some (computedStyle !! k) →
            elem k (plainProps ++ rhythmProps
                    ++ ["backgroundColor"; "borderRadius"; "outline"]) = true
            ∨ borderProp (get props "border") = Ok k).
  { destruct (truthy (get props "border")) eqn:Hb.
    2: { rewrite Box_no_border in HBox by done. injection HBox as <- <-.
         left. by apply (propsToStyle_vocabulary th props). }
    destruct (borderProp (get props "border")) as [bp|err] eqn:Hbp.
    2: { by rewrite (Box_throw th props err) in HBox. }
    rewrite (Box_border th props bp) in HBox by done. injection HBox as <- <-.
    intros [H|H]%lookup_union_is_Some;
      [|left; by apply (propsToStyle_vocabulary th props)].
    apply lookup_insert_is_Some in H as [->|[_ [x Hx]]]; [by right|left].
    apply adjustPadding_entries in Hx as [[-> _]|(e & He & -> & _)]; [done|].
    unfold edges in He.
    repeat (apply elem_of_cons in He as [->|He]; [done|]).
    by apply elem_of_nil in He. }
  split; [done|]. intros [Hno Hbor]%shorthand_not_style_key.
  destruct (computedStyle !! k) as [x|] eqn:E; [|done].
  destruct Hkeys as [H|H]; [by eexists|congruence|].
  apply borderProp_prefix in H as [r ->]. by destruct (Hbor r).
Qed.

Lemma get_permutation (props1 props2 : list (string * value)) k :
  props1 ≡ₚ props2 → NoDup (keys props1) → get props1 k = get props2 k.
Proof.
  intros Hperm Hnd.
  assert (Hkeys : keys props1 ≡ₚ keys props2) by by apply fmap_Permutation.
  destruct (decide (k ∈ keys props1)) as [Hin|Hin].
  - symmetry. apply get_elem_of; [by rewrite <- Hkeys|].
    rewrite <- Hperm. by apply get_key_elem_of.
  - rewrite (get_not_key props1) by done.
    rewrite (get_not_key props2); [done|by rewrite <- Hkeys].
Qed.

(** X17. When no two props of a request write a common style key, the
    whole resolution, computed style and warnings, does not depend on the
    order in which the request enumerates its props. *)
Theorem Box_order_independent th props1 props2 :
  props1 ≡ₚ props2 →
  NoDup (keys props1) → conflictFree (keys props1) = true →
  Box th props1 = Box th props2.
Proof.
  intros Hperm Hnd Hcf.
  unfold Box, borderWithRhythm, borderWidth, borderColor.
  rewrite (propsToStyle_permutation th props1 props2 Hperm Hnd)
    by by apply conflictFree_disjointTargets.
  by rewrite !(get_permutation props1 props2 _ Hperm Hnd).
Qed.

End Style.

(** ** The pages' uses of Box, on the example theme *)

Example marginVertical_page :
  propsToStyle noFraction noNative demoTheme
    [("marginVertical", VNumber (Finite (3 # 2)))]
  = <[ "marginBottom" := VNumber (num_of_Z 30) ]>
      {[ "marginTop" := VNumber (num_of_Z 30) ]}.
Proof. vm_compute. reflexivity. Qed.

Example marginLeft_first_button :
  propsToStyle noFraction noNative demoTheme
    [("backgroundColor", VString "primary"); ("marginLeft", VNumber (num_of_Z 0))]
  = <[ "marginLeft" := VNumber (num_of_Z 0) ]>
      {[ "backgroundColor" := VUndefined ]}.
Proof. vm_compute. reflexivity. Qed.

Example marginLeft_other_buttons :
  propsToStyle noFraction noNative demoTheme [("marginLeft", VString ".75em")]
  = {[ "marginLeft" := VString ".75em" ]}.
Proof. vm_compute. reflexivity. Qed.

Example border_number_throws :
  Box noFraction noNative noParse noCapital demoTheme [("border", VNumber (num_of_Z 5))]
  = Throw TypeError.
Proof. vm_compute. reflexivity. Qed.

Example negative_borderWidth_printed :
  computed (Box noFraction noNative noParse noCapital demoTheme
              [("border", VString "left"); ("borderWidth", VNumber (num_of_Z (-3)))])
    "borderLeft"
  = Some (VString "solid -3px #ccc").
Proof. vm_compute. reflexivity. Qed.

(** ** The claims on the example theme *)

(** C1, counterexample. Enumerated as [{marginLeft: 0.5, margin: 1}], the
    request yields [marginLeft = 20], not [10]: the later [margin]
    overwrites the more specific prop. *)
Lemma enumeration_order_counterexample :
  propsToStyle noFraction noNative demoTheme leftThenMargin !! "marginLeft"
  = Some (VNumber (num_of_Z 20))
  ∧ propsToStyle noFraction noNative demoTheme leftThenMargin !! "marginLeft"
    ≠ Some (VNumber (num_of_Z 10)).
Proof. split; [vm_compute; reflexivity|]. vm_compute. discriminate. Qed.

(** C1, witness: the last-writer rule at [{margin: 1, marginLeft: 0.5}]. *)
Lemma enumeration_order_witness :
  propsToStyle noFraction noNative demoTheme marginThenLeft !! "marginLeft"
  = Some (VNumber (num_of_Z 10)).
Proof.
  apply (proj1 (propsToStyle_enumeration_order noFraction noNative) demoTheme
           [("margin", VNumber (num_of_Z 1))] "marginLeft"
           (VNumber (Finite (1 # 2))) []
           {[ "marginLeft" := VNumber (num_of_Z 10) ]}).
  - apply (bool_decide_unpack _). vm_compute. exact I.
  - vm_compute. reflexivity.
  - vm_compute. reflexivity.
  - intros p' v' ps' Hin. exfalso. revert Hin. apply not_elem_of_nil.
Defined.

(** C2, counterexample. [{border: true, paddingTop: false}] resolves to
    [paddingTop = -1], not to the mapped [0]. *)
Lemma uncompensated_padding_counterexample :
  computed (Box noFraction noNative noParse noCapital demoTheme borderedNoPadding) "paddingTop"
  = Some (VNumber (num_of_Z (-1)))
  ∧ computed (Box noFraction noNative noParse noCapital demoTheme borderedNoPadding) "paddingTop"
    ≠ Some (VNumber (num_of_Z 0)).
Proof. split; [vm_compute; reflexivity|]. vm_compute. discriminate. Qed.

(** C2, witness: the example theme has border width 1. *)
Lemma uncompensated_padding_witness :
  ¬ border_width demoTheme == 0
  ∧ computed (Box noFraction noNative noParse noCapital demoTheme borderedNoPadding) "outline"
    = Some (VString "solid 1px red").
Proof.
  assert (H : ¬ border_width demoTheme == 0) by discriminate.
  split; [exact H|].
  exact (proj1 (proj2 (uncompensated_padding_is_reduced
                         noFraction noNative noParse noCapital demoTheme H))).
Defined.

(** C3, counterexample. The example theme has no colour named
    "transparent", and [backgroundColor: 'transparent'] maps to
    [undefined]. *)
Lemma transparent_counterexample :
  propToStyle noFraction noNative "backgroundColor" (VString "transparent") demoTheme
  = Some {[ "backgroundColor" := VUndefined ]}
  ∧ propToStyle noFraction noNative "backgroundColor" (VString "transparent") demoTheme
    ≠ Some {[ "backgroundColor" := VString "transparent" ]}.
Proof.
  split; [vm_compute; reflexivity|]. intros H.
  apply (f_equal (λ o, o ≫= (.!! "backgroundColor"))) in H.
  vm_compute in H. discriminate H.
Qed.

(** C4, counterexample. In [{border: true, paddingBottom: 1,
    suppressRhythmWarning: true}] the bottom edge is adjusted and
    [20 - 1 >= 0], yet the overlay holds no [paddingBottom] and the
    computed style keeps [20]: the failing edges after it discard the
    overlay. *)
Lemma border_compensation_counterexample :
  propsToStyle noFraction noNative demoTheme bottomPaddedSuppressed !! "paddingBottom"
  = Some (VNumber (num_of_Z 20))
  ∧ adjust (get bottomPaddedSuppressed "border") "Bottom" = true
  ∧ num_ge0 (num_sub (num_of_Z 20)
               (toNumber noParse (borderWidth demoTheme bottomPaddedSuppressed)))
    = true
  ∧ (adjustPaddingForRhythm noParse
       (get bottomPaddedSuppressed "suppressRhythmWarning")
       (get bottomPaddedSuppressed "border")
       (borderWidth demoTheme bottomPaddedSuppressed)
       (propsToStyle noFraction noNative demoTheme bottomPaddedSuppressed)).1
      !! "paddingBottom" = None
  ∧ computed (Box noFraction noNative noParse noCapital demoTheme bottomPaddedSuppressed)
      "paddingBottom"
    = Some (VNumber (num_of_Z 20)).
Proof. repeat split; vm_compute; reflexivity. Qed.

(** C4, witness: the top edge of [{border: true, paddingTop: 1}]. *)
Lemma border_compensation_witness :
  ∃ overlay log,
    borderWithRhythm noFraction noNative noParse noCapital demoTheme borderedPadded
      {[ "paddingTop" := VNumber (num_of_Z 20) ]} = Ok (overlay, log)
    ∧ overlay !! "paddingTop" = Some (VNumber (num_of_Z 19)).
Proof.
  apply (proj1 (proj2 (border_compensation noFraction noNative noParse noCapital demoTheme))
           borderedPadded {[ "paddingTop" := VNumber (num_of_Z 20) ]}
           "border" ["Bottom"; "Left"; "Right"] "Top" [] (Finite 20)).
  - reflexivity.
  - reflexivity.
  - reflexivity.
  - reflexivity.
  - reflexivity.
  - vm_compute. reflexivity.
  - reflexivity.
  - left. reflexivity.
Defined.

(** C5, witness: the page's [marginVertical={1.5}] on the example theme. *)
Lemma rhythmOrString_witness :
  rhythmOrString demoTheme (VNumber (Finite (3 # 2))) = VNumber (num_of_Z 30).
Proof.
  apply (proj1 (proj2 (proj2 (rhythmOrString_total demoTheme)))).
  reflexivity.
Defined.

(** C6, witness: a request that sets [suppressRhythmWarning]. *)
Lemma suppressed_failure_witness :
  warnings (Box noFraction noNative noParse noCapital demoTheme bottomPaddedSuppressed) = []
  ∧ computed (Box noFraction noNative noParse noCapital demoTheme bottomPaddedSuppressed)
      "outline" = None.
Proof.
  apply (proj1 (proj2 (proj2 (suppressed_failure_discards
                                noFraction noNative noParse noCapital demoTheme)))
           bottomPaddedSuppressed).
  reflexivity.
Defined.

(** C7, counterexample. [{border: true, borderWidth: 0}] on a theme of
    border width 1 draws a 1px border, not a 0px one. *)
Lemma borderWidth_zero_counterexample :
  get zeroBorderWidth "borderWidth" = VNumber (num_of_Z 0)
  ∧ computed (Box noFraction noNative noParse noCapital demoTheme zeroBorderWidth) "border"
    = Some (VString "solid 1px #ccc")
  ∧ computed (Box noFraction noNative noParse noCapital demoTheme zeroBorderWidth) "border"
    ≠ Some (VString "solid 0px #ccc").
Proof.
  split; [reflexivity|]. split; [vm_compute; reflexivity|]. vm_compute. discriminate.
Qed.

(** C7, witness: a truthy [borderWidth] is the one used, and the falsy
    [0] gives way to the theme's width. *)
Lemma borderWidth_witness :
  borderWidth demoTheme wideBorder = VNumber (num_of_Z 2)
  ∧ borderWidth demoTheme zeroBorderWidth = VNumber (num_of_Z 1).
Proof.
  split.
  - apply (proj1 (borderWidth_or_theme noFraction noNative noParse noCapital
                    demoTheme wideBorder)).
    reflexivity.
  - apply (proj1 (proj2 (borderWidth_or_theme noFraction noNative noParse
                           noCapital demoTheme zeroBorderWidth))).
    reflexivity.
Defined.



(** C9, counterexample. The example theme has no colour named "toString",
    yet [backgroundColor: 'toString'] resolves to the inherited member, not
    to undefined; and with an unknown colour and [border: 5] resolution
    raises a TypeError. *)
Lemma unknown_color_counterexample :
  colors demoTheme !! "toString" = None
  ∧ computed (Box noFraction noNative noParse noCapital demoTheme
                inheritedColor) "backgroundColor"
    = Some (VInherited "toString")
  ∧ computed (Box noFraction noNative noParse noCapital demoTheme
                inheritedColor) "backgroundColor"
    ≠ Some VUndefined
  ∧ colors demoTheme !! "nope" = None
  ∧ Box noFraction noNative noParse noCapital demoTheme unknownColorNumberBorder
    = Throw TypeError.
Proof.
  split; [vm_compute; reflexivity|]. split; [vm_compute; reflexivity|].
  split; [vm_compute; discriminate|]. split; vm_compute; reflexivity.
Qed.

(** C9, witness: unknown names for both colours. *)
Lemma unknown_color_witness :
  computed (Box noFraction noNative noParse noCapital demoTheme unknownColors)
    "backgroundColor"
  = Some VUndefined
  ∧ computed (Box noFraction noNative noParse noCapital demoTheme unknownColors)
      "border"
    = Some (VString "solid 1px undefined").
Proof.
  split.
  - apply (proj1 (proj2 (proj2 (proj2 (unknown_color_lookup
             noFraction noNative noParse noCapital demoTheme unknownColors))))
             (VString "nope")).
    + reflexivity.
    + apply (bool_decide_unpack _). vm_compute. exact I.
    + apply elem_of_cons. left. reflexivity.
    + vm_compute. reflexivity.
    + reflexivity.
  - apply (proj2 (proj2 (proj2 (proj2 (unknown_color_lookup
             noFraction noNative noParse noCapital demoTheme unknownColors))))
             "border").
    + reflexivity.
    + reflexivity.
    + reflexivity.
    + vm_compute. reflexivity.
    + reflexivity.
Defined.


(** ** The further properties on the example themes *)

(** X1, witness: [className] before a margin. *)
Lemma ignores_unlisted_witness :
  propsToStyle noFraction noNative demoTheme classNameFirst
  = propsToStyle noFraction noNative demoTheme [("marginTop", VNumber (num_of_Z 1))].
Proof.
  apply (propsToStyle_ignores_unlisted noFraction noNative demoTheme []
           "className" (VString "card")
           [("marginTop", VNumber (num_of_Z 1))]).
  - apply (bool_decide_unpack _). vm_compute. exact I.
  - reflexivity.
Defined.

(** X2, witness: [margin: 1] and the four margins. *)
Lemma shorthand_expansion_witness :
  propsToStyle noFraction noNative demoTheme marginOnly
  = propsToStyle noFraction noNative demoTheme fourMargins.
Proof.
  apply (shorthand_is_its_expansion noFraction noNative demoTheme []
           "margin" (VNumber (num_of_Z 1)) []).
  - reflexivity.
  - apply (bool_decide_unpack _). vm_compute. exact I.
  - apply (bool_decide_unpack _). vm_compute. exact I.
Defined.

(** X3, witness: a margin and [display], swapped. *)
Lemma order_independent_witness :
  propsToStyle noFraction noNative demoTheme marginThenDisplay
  = propsToStyle noFraction noNative demoTheme displayThenMargin.
Proof.
  apply (propsToStyle_order_independent noFraction noNative demoTheme).
  - apply perm_swap.
  - apply (bool_decide_unpack _). vm_compute. exact I.
  - reflexivity.
Defined.

(** X4, witness: [display] beside a border. *)
Lemma plain_prop_witness :
  computed (Box noFraction noNative noParse noCapital demoTheme flexBordered) "display"
  = Some (VString "flex").
Proof.
  apply (plain_prop_passes_through noFraction noNative noParse noCapital demoTheme flexBordered).
  - reflexivity.
  - apply (bool_decide_unpack _). vm_compute. exact I.
  - apply elem_of_cons. left. reflexivity.
  - reflexivity.
Defined.

(** X5, witness: [borderRadius: 0] gives the theme's radius 2. *)
Lemma borderRadius_witness :
  propsToStyle noFraction noNative demoTheme zeroRadius !! "borderRadius"
  = Some (VNumber (num_of_Z 2)).
Proof.
  apply (borderRadius_or_theme noFraction noNative demoTheme zeroRadius
           (VNumber (num_of_Z 0))).
  - apply (bool_decide_unpack _). vm_compute. exact I.
  - apply elem_of_cons. left. reflexivity.
Defined.

(** X6, witness: [border: false] with a border width and a padding. *)
Lemma without_border_witness :
  Box noFraction noNative noParse noCapital demoTheme borderOff
  = Ok (propsToStyle noFraction noNative demoTheme borderOff, []).
Proof.
  apply (Box_without_border noFraction noNative noParse noCapital demoTheme borderOff).
  reflexivity.
Defined.

(** X8, witness: a border on the theme without stroke. *)
Lemma zero_width_witness :
  Box noFraction noNative noParse noCapital flatTheme borderedPadded
  = Ok (<[ "border" := VString "solid 0px #ccc" ]>
          (propsToStyle noFraction noNative flatTheme borderedPadded), []).
Proof.
  apply (zero_width_border noFraction noNative noParse noCapital flatTheme borderedPadded
           "border"); reflexivity.
Defined.

(** X9, witness: a top border over [paddingTop: '10%']. *)
Lemma string_padding_witness :
  Box noFraction noNative noParse noCapital demoTheme percentTop
  = Ok (<[ "borderTop" := VString "solid 1px #ccc" ]>
          {[ "paddingTop" := VString "10%" ]}, [])
  ∧ (<[ "borderTop" := VString "solid 1px #ccc" ]>
       {[ "paddingTop" := VString "10%" ]} : gmap string value)
      !! "paddingTop" = Some (VString "10%").
Proof.
  assert (HBox : Box noFraction noNative noParse noCapital demoTheme percentTop
                 = Ok (<[ "borderTop" := VString "solid 1px #ccc" ]>
                         {[ "paddingTop" := VString "10%" ]}, []))
    by (vm_compute; reflexivity).
  split; [exact HBox|].
  apply (string_padding_kept noFraction noNative noParse noCapital demoTheme percentTop
           _ [] "Top" "10%" HBox).
  - apply elem_true. reflexivity.
  - vm_compute. reflexivity.
Defined.

(** X10, witness: a top border leaves [paddingBottom] as mapped. *)
Lemma overlay_frame_witness :
  Box noFraction noNative noParse noCapital demoTheme topBorderTwoPaddings
  = Ok (<[ "borderTop" := VString "solid 1px #ccc" ]>
          (<[ "paddingTop" := VNumber (num_of_Z 19) ]>
             {[ "paddingBottom" := VNumber (num_of_Z 20) ]}), [])
  ∧ (<[ "borderTop" := VString "solid 1px #ccc" ]>
       (<[ "paddingTop" := VNumber (num_of_Z 19) ]>
          {[ "paddingBottom" := VNumber (num_of_Z 20) ]})
     : gmap string value) !! "paddingBottom"
    = propsToStyle noFraction noNative demoTheme topBorderTwoPaddings !! "paddingBottom".
Proof.
  assert (HBox : Box noFraction noNative noParse noCapital demoTheme topBorderTwoPaddings
                 = Ok (<[ "borderTop" := VString "solid 1px #ccc" ]>
                         (<[ "paddingTop" := VNumber (num_of_Z 19) ]>
                            {[ "paddingBottom" := VNumber (num_of_Z 20) ]}), []))
    by (vm_compute; reflexivity).
  split; [exact HBox|].
  apply (overlay_frame noFraction noNative noParse noCapital demoTheme topBorderTwoPaddings
           _ [] "paddingBottom" HBox).
  - discriminate.
  - discriminate.
  - intros e He Ha Heq. apply (padding_inj "Bottom" e) in Heq. subst e.
    discriminate Ha.
Defined.

(** X11, witness: the four warnings of [{border: true, paddingTop: false}]. *)
Lemma warnings_witness :
  warnings (Box noFraction noNative noParse noCapital demoTheme borderedNoPadding)
  = [rhythmWarning "paddingBottom" "vertical";
     rhythmWarning "paddingLeft" "horizontal";
     rhythmWarning "paddingRight" "horizontal";
     rhythmWarning "paddingTop" "vertical"].
Proof.
  apply (warnings_per_failing_edge noFraction noNative noParse noCapital demoTheme
           borderedNoPadding "border"); reflexivity.
Defined.

(** X12, witness: a compensated top border, neither warned nor flagged. *)
Lemma outline_iff_warned_witness :
  Box noFraction noNative noParse noCapital demoTheme topBorderPadded
  = Ok (<[ "borderTop" := VString "solid 1px #ccc" ]>
          {[ "paddingTop" := VNumber (num_of_Z 19) ]}, [])
  ∧ (([] : list string) = []
     ∧ (<[ "borderTop" := VString "solid 1px #ccc" ]>
          {[ "paddingTop" := VNumber (num_of_Z 19) ]} : gmap string value)
         !! "outline" = None
     ∨ ([] : list string) ≠ []
       ∧ (<[ "borderTop" := VString "solid 1px #ccc" ]>
            {[ "paddingTop" := VNumber (num_of_Z 19) ]} : gmap string value)
           !! "outline" = Some (VString "solid 1px red")).
Proof.
  assert (HBox : Box noFraction noNative noParse noCapital demoTheme topBorderPadded
                 = Ok (<[ "borderTop" := VString "solid 1px #ccc" ]>
                         {[ "paddingTop" := VNumber (num_of_Z 19) ]}, []))
    by (vm_compute; reflexivity).
  split; [exact HBox|].
  exact (outline_iff_warned noFraction noNative noParse noCapital demoTheme topBorderPadded
           _ [] HBox).
Defined.

(** X13, witness: the bottom edge of [{border: true, paddingTop: false}]. *)
Lemma missing_padding_witness :
  computed (Box noFraction noNative noParse noCapital demoTheme borderedNoPadding) "paddingBottom"
  = Some (VNumber NaN)
  ∧ computed (Box noFraction noNative noParse noCapital demoTheme borderedNoPadding) "outline"
    = Some (VString "solid 1px red").
Proof.
  apply (missing_padding_is_NaN noFraction noNative noParse noCapital demoTheme
           borderedNoPadding "border" "Bottom"); try reflexivity.
  apply elem_true. reflexivity.
Defined.

(** X15, witness: the missing top padding fails, and the bottom padding
    stays at the mapped 20. *)
Lemma suppressed_keeps_witness :
  computed (Box noFraction noNative noParse noCapital demoTheme bottomPaddedSuppressed)
    "paddingBottom"
  = propsToStyle noFraction noNative demoTheme bottomPaddedSuppressed !! "paddingBottom".
Proof.
  apply (suppressed_failure_keeps_mapped noFraction noNative noParse noCapital demoTheme
           bottomPaddedSuppressed "border" ["Bottom"; "Left"; "Right"]
           "Top" [] "Bottom"); try reflexivity.
  apply elem_true. reflexivity.
Defined.

(** X16, witness: the keys of a compensated top border. *)
Lemma computed_style_keys_witness :
  Box noFraction noNative noParse noCapital demoTheme topBorderPadded
  = Ok (<[ "borderTop" := VString "solid 1px #ccc" ]>
          {[ "paddingTop" := VNumber (num_of_Z 19) ]}, [])
  ∧ (<[ "borderTop" := VString "solid 1px #ccc" ]>
       {[ "paddingTop" := VNumber (num_of_Z 19) ]} : gmap string value)
      !! "padding" = None.
Proof.
  assert (HBox : Box noFraction noNative noParse noCapital demoTheme topBorderPadded
                 = Ok (<[ "borderTop" := VString "solid 1px #ccc" ]>
                         {[ "paddingTop" := VNumber (num_of_Z 19) ]}, []))
    by (vm_compute; reflexivity).
  split; [exact HBox|].
  apply (proj2 (computed_style_keys noFraction noNative noParse noCapital demoTheme
                  topBorderPadded _ [] "padding" HBox)).
  reflexivity.
Defined.

(** X17, witness: [border] before or after the padding. *)
Lemma Box_order_independent_witness :
  Box noFraction noNative noParse noCapital demoTheme borderedPadded
  = Box noFraction noNative noParse noCapital demoTheme paddedThenBordered.
Proof.
  apply (Box_order_independent noFraction noNative noParse noCapital demoTheme).
  - apply perm_swap.
  - apply (bool_decide_unpack _). vm_compute. exact I.
  - reflexivity.
Defined.
